(** * HumanCell: record stores, prompt builder, generation adapter, batch runner

    A shallow embedding of [storage.py], [cloud_storage.py] and
    [tools/run_gemini.py].  SQLite tables are modelled as lists of typed rows
    together with the AUTOINCREMENT counter, Python values as a small
    inductive type, exceptions as values of an error type, and the effects of
    every function as explicit state passing. *)

From Stdlib Require Import ZArith List String Ascii Bool Lia.
From Stdlib Require Import DecimalString Sorting.Sorted Sorting.Permutation.
Import ListNotations.

Local Open Scope string_scope.
Local Open Scope Z_scope.

(** ** Exceptions and results *)

(** The exception classes that occur in the modelled code.  All of them are
    subclasses of [Exception]; [ModuleNotFoundError] is a subclass of
    [ImportError].  Process interruption ([KeyboardInterrupt], [SystemExit])
    is outside the model. *)
Inductive exc_class : Type :=
  | ValueError
  | TypeError
  | ImportError
  | ModuleNotFoundError
  | FileNotFoundError
  | AttributeError
  | IndexError
  | KeyError
  | RuntimeError
  | ConnectionError
  | OperationalError
  | IntegrityError
  | OverflowError.

(** An exception instance: its class and the message [str(e)] returns. *)
Record exn : Type := Raise { exc_cls : exc_class; exc_msg : string }.

Inductive result (A : Type) : Type :=
  | Ok (a : A)
  | Err (e : exn).
Arguments Ok {A} a.
Arguments Err {A} e.

Definition bind {A B : Type} (r : result A) (k : A -> result B) : result B :=
  match r with
  | Ok a => k a
  | Err e => Err e
  end.

Notation "'let*' x ':=' r 'in' k" := (bind r (fun x => k))
  (at level 10, x name, r at level 100, k at level 200).

(** [isinstance(e, ImportError)], the test of [except ImportError]. *)
Definition is_ImportError (e : exn) : bool :=
  match exc_cls e with
  | ImportError | ModuleNotFoundError => true
  | _ => false
  end.

Definition is_ok {A : Type} (r : result A) : bool :=
  match r with Ok _ => true | Err _ => false end.

(** ** Python values *)

(** The values that flow through the modelled code: [None], booleans,
    integers, strings, lists and string-keyed dicts (insertion ordered, as an
    association list).  A [string] is read as a sequence of code points below
    256.  Floats and bytes objects are outside the model. *)
Unset Elimination Schemes.
Inductive pyval : Type :=
  | PNone
  | PBool (b : bool)
  | PInt (z : Z)
  | PStr (s : string)
  | PList (l : list pyval)
  | PDict (d : list (string * pyval)).
Set Elimination Schemes.

Definition pydict : Type := list (string * pyval).

(** Truth value of an object, as used by [if], [or] and [not]. *)
Definition truthy (v : pyval) : bool :=
  match v with
  | PNone => false
  | PBool b => b
  | PInt z => negb (z =? 0)
  | PStr s => negb (s =? "")%string
  | PList l => match l with [] => false | _ => true end
  | PDict d => match d with [] => false | _ => true end
  end.

(** [a or b] *)
Definition py_or (a b : pyval) : pyval := if truthy a then a else b.

(** [d.get(k)] as an option: [None] when the key is absent. *)
Fixpoint dict_lookup (d : pydict) (k : string) : option pyval :=
  match d with
  | [] => None
  | (k', v) :: d' => if (k' =? k)%string then Some v else dict_lookup d' k
  end.

(** [k in d] *)
Definition dict_mem (d : pydict) (k : string) : bool :=
  match dict_lookup d k with Some _ => true | None => false end.

(** [d.get(k, default)] *)
Definition dict_get (d : pydict) (k : string) (default : pyval) : pyval :=
  match dict_lookup d k with Some v => v | None => default end.

(** [d[k] = v]: an existing key keeps its position, a new key goes last. *)
Fixpoint dict_set (d : pydict) (k : string) (v : pyval) : pydict :=
  match d with
  | [] => [(k, v)]
  | (k', v') :: d' =>
      if (k' =? k)%string then (k', v) :: d' else (k', v') :: dict_set d' k v
  end.

(** ** Strings *)

Definition str_of_Z (z : Z) : string := NilZero.string_of_int (Z.to_int z).

Definition hex_digit (n : N) : ascii :=
  match n with
  | 0 => "0" | 1 => "1" | 2 => "2" | 3 => "3" | 4 => "4" | 5 => "5"
  | 6 => "6" | 7 => "7" | 8 => "8" | 9 => "9" | 10 => "a" | 11 => "b"
  | 12 => "c" | 13 => "d" | 14 => "e" | _ => "f"
  end%N%char.

Definition hex2 (c : ascii) : string :=
  let n := N_of_ascii c in
  String (hex_digit (n / 16)) (String (hex_digit (n mod 16)) "").

Definition chr (n : nat) : ascii := ascii_of_nat n.

Definition backslash : ascii := chr 92.
Definition dquote : ascii := chr 34.
Definition squote : ascii := chr 39.
Definition newline : ascii := chr 10.

Fixpoint str_contains_char (c : ascii) (s : string) : bool :=
  match s with
  | EmptyString => false
  | String c' s' => (c' =? c)%char || str_contains_char c s'
  end.

Fixpoint str_flat_map (f : ascii -> string) (s : string) : string :=
  match s with
  | EmptyString => EmptyString
  | String c s' => f c ++ str_flat_map f s'
  end.

(** [s.replace(old, new)] for a non-empty [old]: scanning from the left,
    every non-overlapping occurrence of [old] is replaced.  [skip] counts the
    characters of a matched occurrence that are still to be passed over. *)
Fixpoint replace_from (old new : string) (skip : nat) (s : string) : string :=
  match s with
  | EmptyString => EmptyString
  | String c s' =>
      match skip with
      | S k => replace_from old new k s'
      | O =>
          if prefix old s
          then new ++ replace_from old new (Nat.pred (String.length old)) s'
          else String c (replace_from old new O s')
      end
  end.

(** [s.replace(old, new)]; with an empty [old], [new] is inserted before
    every character and at the end. *)
Definition py_replace (s old new : string) : string :=
  match old with
  | EmptyString => new ++ str_flat_map (fun c => String c new) s
  | _ => replace_from old new O s
  end.

(** *** [repr] and [str] *)

(** [repr] of one character of a string whose quote character is [q]. *)
Definition repr_char (q : ascii) (c : ascii) : string :=
  let n := N_of_ascii c in
  if (c =? q)%char || (c =? backslash)%char then String backslash (String c "")
  else if (n =? 9)%N then String backslash "t"
  else if (n =? 10)%N then String backslash "n"
  else if (n =? 13)%N then String backslash "r"
  else if (n <? 32)%N || (n =? 127)%N
          || ((128 <=? n)%N && (n <=? 160)%N) || (n =? 173)%N
       then String backslash (String "x" (hex2 c))
  else String c "".

(** [repr(s)] for a string: single quotes unless the string has a single
    quote and no double quote. *)
Definition repr_str (s : string) : string :=
  let q := if str_contains_char squote s && negb (str_contains_char dquote s)
           then dquote else squote in
  String q (str_flat_map (repr_char q) s ++ String q "").

Fixpoint py_repr (v : pyval) : string :=
  match v with
  | PNone => "None"
  | PBool true => "True"
  | PBool false => "False"
  | PInt z => str_of_Z z
  | PStr s => repr_str s
  | PList l => "[" ++ String.concat ", " (map py_repr l) ++ "]"
  | PDict d =>
      "{" ++ String.concat ", "
               (map (fun kv => repr_str (fst kv) ++ ": " ++ py_repr (snd kv)) d)
          ++ "}"
  end.

(** [str(v)] *)
Definition py_str (v : pyval) : string :=
  match v with
  | PStr s => s
  | _ => py_repr v
  end.

(** *** [json.dumps] *)

(** The escape of one character inside a JSON string.  With [ensure_ascii]
    every character outside [' '..'~'] is written as [\u00xx]; without it
    only the control characters below 32 are. *)
Definition json_escape_char (ensure_ascii : bool) (c : ascii) : string :=
  let n := N_of_ascii c in
  if (c =? dquote)%char then String backslash (String dquote "")
  else if (c =? backslash)%char then String backslash (String backslash "")
  else if (n =? 10)%N then String backslash "n"
  else if (n =? 13)%N then String backslash "r"
  else if (n =? 9)%N then String backslash "t"
  else if (n =? 8)%N then String backslash "b"
  else if (n =? 12)%N then String backslash "f"
  else if (n <? 32)%N || (ensure_ascii && (126 <? n)%N)
       then String backslash ("u00" ++ hex2 c)
  else String c "".

Definition json_string (ensure_ascii : bool) (s : string) : string :=
  String dquote (str_flat_map (json_escape_char ensure_ascii) s
                 ++ String dquote "").

(** [json.dumps(v, ensure_ascii=...)] with the default separators. *)
Fixpoint json_dumps (ensure_ascii : bool) (v : pyval) : string :=
  match v with
  | PNone => "null"
  | PBool true => "true"
  | PBool false => "false"
  | PInt z => str_of_Z z
  | PStr s => json_string ensure_ascii s
  | PList l => "[" ++ String.concat ", " (map (json_dumps ensure_ascii) l) ++ "]"
  | PDict d =>
      "{" ++ String.concat ", "
               (map (fun kv => json_string ensure_ascii (fst kv) ++ ": "
                               ++ json_dumps ensure_ascii (snd kv)) d)
          ++ "}"
  end.

(** ** SQLite tables with an AUTOINCREMENT integer primary key *)

(** The largest rowid, 2^63 - 1. *)
Definition MAX_ROWID : Z := 9223372036854775807.
Definition MIN_INT64 : Z := -9223372036854775808.

(** A table: its rows, each a rowid with the other columns, and the value
    kept for it in [sqlite_sequence] (0 while there is no entry). *)
Record table (C : Type) : Type := mk_table {
  rows : list (Z * C);
  seq : Z
}.
Arguments mk_table {C} rows seq.
Arguments rows {C} t.
Arguments seq {C} t.

Definition empty_table {C : Type} : table C := mk_table [] 0.

(** A database file: absent, or present with or without the table. *)
Inductive dbfile (C : Type) : Type :=
  | NoFile
  | DbFile (tbl : option (table C)).
Arguments NoFile {C}.
Arguments DbFile {C} tbl.

(** The rows a database file holds. *)
Definition db_rows {C : Type} (db : dbfile C) : list (Z * C) :=
  match db with
  | DbFile (Some t) => rows t
  | _ => []
  end.

(** The largest rowid of a table, [None] when it has no row. *)
Fixpoint max_rowid {C : Type} (l : list (Z * C)) : option Z :=
  match l with
  | [] => None
  | (i, _) :: l' =>
      match max_rowid l' with
      | None => Some i
      | Some m => Some (Z.max i m)
      end
  end.

Definition sqlite_full : exn := Raise OperationalError "database or disk is full".

(** The rowid an AUTOINCREMENT insert assigns: one more than the largest
    rowid in the table (1 for an empty table), raised to one more than the
    [sqlite_sequence] value; SQLITE_FULL when either is [MAX_ROWID]. *)
Definition next_rowid {C : Type} (t : table C) : result Z :=
  let v := match max_rowid (rows t) with
           | None => Some 1
           | Some m => if MAX_ROWID <=? m then None else Some (m + 1)
           end in
  match v with
  | None => Err sqlite_full
  | Some v =>
      if seq t =? MAX_ROWID then Err sqlite_full
      else Ok (if v <? seq t + 1 then seq t + 1 else v)
  end.

(** [INSERT INTO t (columns) VALUES (...)] followed by [commit]: the new
    table and [lastrowid]. *)
Definition sqlite_insert {C : Type} (t : table C) (c : C) : result (table C * Z) :=
  let* v := next_rowid t in
  Ok (mk_table (rows t ++ [(v, c)]) v, v).

Fixpoint insert_desc {C : Type} (r : Z * C) (l : list (Z * C)) : list (Z * C) :=
  match l with
  | [] => [r]
  | x :: l' => if fst x <=? fst r then r :: l else x :: insert_desc r l'
  end.

(** [ORDER BY id DESC] *)
Definition order_by_id_desc {C : Type} (l : list (Z * C)) : list (Z * C) :=
  fold_right insert_desc [] l.

Fixpoint insert_asc {C : Type} (r : Z * C) (l : list (Z * C)) : list (Z * C) :=
  match l with
  | [] => [r]
  | x :: l' => if fst r <=? fst x then r :: l else x :: insert_asc r l'
  end.

(** [ORDER BY id ASC] *)
Definition order_by_id_asc {C : Type} (l : list (Z * C)) : list (Z * C) :=
  fold_right insert_asc [] l.

(** [LIMIT k]: a negative [k] is no limit. *)
Definition sql_limit {A : Type} (k : Z) (l : list A) : list A :=
  if k <? 0 then l else firstn (Z.to_nat k) l.

Definition in_int64 (k : Z) : bool := (MIN_INT64 <=? k) && (k <=? MAX_ROWID).

Definition py_opt_str (o : option string) : pyval :=
  match o with
  | Some s => PStr s
  | None => PNone
  end.

(** ** [storage.py] *)

Module Storage.

(** The columns of [inputs] other than [id]. *)
Record cols : Type := mk_cols {
  text : string;
  source : option string;
  processed : option string;
  created_at : string
}.

Definition db : Type := dbfile cols.

(** [init_db]: [CREATE TABLE IF NOT EXISTS inputs]; the file is created by
    the connection.  Returns the table the database holds afterwards. *)
Definition init_db (d : db) : table cols :=
  match d with
  | DbFile (Some t) => t
  | _ => empty_table
  end.

(** [save_input(text, source, processed)], [now] being the value of
    [datetime.utcnow().isoformat()].  [text] is a string or [None]. *)
Definition save_input (now : string) (text : option string)
    (source processed : option string) (d : db) : db * result Z :=
  match text with
  | None => (d, Err (Raise ValueError "text must not be None"))
  | Some t =>
      let tbl := init_db d in
      match sqlite_insert tbl (mk_cols t source processed now) with
      | Ok (tbl', id) => (DbFile (Some tbl'), Ok id)
      | Err e => (DbFile (Some tbl), Err e)
      end
  end.

(** The dict [get_all] builds from a row. *)
Definition record (r : Z * cols) : pydict :=
  [("id", PInt (fst r));
   ("text", PStr (text (snd r)));
   ("source", py_opt_str (source (snd r)));
   ("processed", py_opt_str (processed (snd r)));
   ("created_at", PStr (created_at (snd r)))].

(** [get_all(limit)]: the [LIMIT ?] clause is added when [limit] is truthy;
    binding an integer outside the 64-bit range raises [OverflowError]. *)
Definition get_all (limit : option Z) (d : db) : db * result (list pydict) :=
  let tbl := init_db d in
  let ordered := order_by_id_desc (rows tbl) in
  let fetched :=
    match limit with
    | Some k =>
        if k =? 0 then Ok ordered
        else if in_int64 k then Ok (sql_limit k ordered)
        else Err (Raise OverflowError
                    "Python int too large to convert to SQLite INTEGER")
    | None => Ok ordered
    end in
  (DbFile (Some tbl), let* rs := fetched in Ok (map record rs)).

End Storage.

(** ** [cloud_storage.py] *)

Module Cloud.

(** The columns of [cloud_strings] other than [id]. *)
Record cols : Type := mk_cols {
  text : string;
  created_at : option string
}.

Definition db : Type := dbfile cols.

(** [CREATE TABLE IF NOT EXISTS cloud_strings] on a fresh connection. *)
Definition ensure_table (d : db) : table cols :=
  match d with
  | DbFile (Some t) => t
  | _ => empty_table
  end.

Definition record (r : Z * cols) : pydict :=
  [("id", PInt (fst r));
   ("text", PStr (text (snd r)));
   ("created_at", py_opt_str (created_at (snd r)))].

(** [read_all_strings_from_cloud] *)
Definition read_all_strings_from_cloud (d : db) : db * result (list pydict) :=
  let tbl := ensure_table d in
  (DbFile (Some tbl), Ok (map record (order_by_id_asc (rows tbl)))).

(** [store_txt_file_in_cloud(txt_file_path)]: [fs] gives the decoded content
    of each text file that exists, [now] is the value of CURRENT_TIMESTAMP. *)
Definition store_txt_file_in_cloud (fs : string -> option string) (now : string)
    (txt_file_path : string) (d : db) : db * result Z :=
  match fs txt_file_path with
  | None => (d, Err (Raise FileNotFoundError ("File not found: " ++ txt_file_path)))
  | Some text =>
      if (text =? "")%string then (d, Err (Raise ValueError "Text file is empty."))
      else
        let tbl := ensure_table d in
        match sqlite_insert tbl (mk_cols text (Some now)) with
        | Ok (tbl', id) => (DbFile (Some tbl'), Ok id)
        | Err e => (DbFile (Some tbl), Err e)
        end
  end.

End Cloud.

(** ** [tools/run_gemini.py] *)

Module Gemini.

(** *** Record readers *)

(** The dict [read_cloud_strings] builds from a row.  The readers write the
    limit into the statement text, where an integer literal outside the
    64-bit range is a datatype mismatch. *)
Definition cloud_record (r : Z * Cloud.cols) : pydict :=
  [("id", PInt (fst r));
   ("text", PStr (Cloud.text (snd r)));
   ("ts", py_opt_str (Cloud.created_at (snd r)))].

(** [SELECT ... ORDER BY id DESC] with the optional [LIMIT], run on a
    database file that exists. *)
Definition select_desc {C : Type} (tname : string) (limit : option Z)
    (tbl : option (table C)) : result (list (Z * C)) :=
  match tbl with
  | None => Err (Raise OperationalError ("no such table: " ++ tname))
  | Some t =>
      let ordered := order_by_id_desc (rows t) in
      match limit with
      | Some k =>
          if k =? 0 then Ok ordered
          else if in_int64 k then Ok (sql_limit k ordered)
          else Err (Raise IntegrityError "datatype mismatch")
      | None => Ok ordered
      end
  end.

Definition read_cloud_strings (limit : option Z) (d : Cloud.db)
    : result (list pydict) :=
  match d with
  | NoFile => Ok []
  | DbFile tbl =>
      let* rs := select_desc "cloud_strings" limit tbl in
      Ok (map cloud_record rs)
  end.

(** A value of a column without a declared Python-side type: NULL, an
    integer or text. *)
Inductive sqlval : Type :=
  | SqlNull
  | SqlInt (z : Z)
  | SqlText (s : string).

Definition py_of_sql (v : sqlval) : pyval :=
  match v with
  | SqlNull => PNone
  | SqlInt z => PInt z
  | SqlText s => PStr s
  end.

(** The columns [read_inputs] selects from the [inputs] table of
    [data/inputs.sqlite], other than the integer key [id]. *)
Record in_cols : Type := mk_in_cols {
  route : sqlval;
  received : sqlval;
  result_ : sqlval;
  ts : sqlval
}.

Section Readers.

(** [json.loads] on a string: the parsed value, or [None] when it raises. *)
Variable json_loads : string -> option pyval.

(** [json.loads(received) if received else received], any exception of
    [json.loads] giving [received] back. *)
Definition load_received (received : sqlval) : pyval :=
  if truthy (py_of_sql received) then
    match received with
    | SqlText s =>
        match json_loads s with
        | Some v => v
        | None => py_of_sql received
        end
    | _ => py_of_sql received
    end
  else py_of_sql received.

Definition input_record (r : Z * in_cols) : pydict :=
  [("id", PInt (fst r));
   ("route", py_of_sql (route (snd r)));
   ("received", load_received (received (snd r)));
   ("result", py_of_sql (result_ (snd r)));
   ("ts", py_of_sql (ts (snd r)))].

Definition read_inputs (limit : option Z) (d : dbfile in_cols)
    : result (list pydict) :=
  match d with
  | NoFile => Ok []
  | DbFile tbl =>
      let* rs := select_desc "inputs" limit tbl in
      Ok (map input_record rs)
  end.

End Readers.

(** *** Prompt builder *)

Definition py_type_name (v : pyval) : string :=
  match v with
  | PNone => "NoneType"
  | PBool _ => "bool"
  | PInt _ => "int"
  | PStr _ => "str"
  | PList _ => "list"
  | PDict _ => "dict"
  end.

(** The second argument of [str.replace] has to be a string. *)
Definition replace_arg (v : pyval) : result string :=
  match v with
  | PStr s => Ok s
  | _ => Err (Raise TypeError
                ("replace() argument 2 must be str, not " ++ py_type_name v))
  end.

(** The value of the local [text] of [build_prompt] before the replacements. *)
Definition resolve_text (record : pydict) : pyval :=
  if dict_mem record "text" then dict_get record "text" PNone
  else if dict_mem record "received" then
    let rec := dict_get record "received" PNone in
    match rec with
    | PDict d =>
        py_or (py_or (dict_get d "freeText" PNone) (dict_get d "text" PNone))
              (PStr (json_dumps true rec))
    | _ => PStr (py_str rec)
    end
  else PStr "".

(** The replacements after [{text}].  [json.dumps] raises on no value of
    the model, so the [except] branch of the last one is never taken. *)
Definition fill_fields (record : pydict) (filled : string) : string :=
  let filled := py_replace filled "{id}" (py_str (dict_get record "id" (PStr ""))) in
  let filled := py_replace filled "{route}" (py_str (dict_get record "route" (PStr ""))) in
  let filled := py_replace filled "{ts}" (py_str (dict_get record "ts" (PStr ""))) in
  py_replace filled "{received}"
    (json_dumps true (dict_get record "received" (PDict []))).

Definition build_prompt (template : string) (record : pydict) : result string :=
  let text := resolve_text record in
  let* arg := replace_arg (py_or text (PStr "")) in
  let filled := py_replace template "{text}" arg in
  Ok (fill_fields record filled).

(** *** Generation client adapter *)

(** What a client library returns: an object, of which the model keeps the
    [text] attribute when it has one and the strings [str] and [repr] give,
    or a plain value (a dict, a string, ...), which has no [text] attribute. *)
Inductive response : Type :=
  | RObject (text_attr : option pyval) (str_ repr_ : string)
  | RValue (v : pyval).

Definition resp_text (r : response) : option pyval :=
  match r with
  | RObject t _ _ => t
  | RValue _ => None
  end.

Definition resp_str (r : response) : string :=
  match r with
  | RObject _ s _ => s
  | RValue v => py_str v
  end.

Definition resp_repr (r : response) : string :=
  match r with
  | RObject _ _ s => s
  | RValue v => py_repr v
  end.

(** A generate-text entry point, called with [model] and [prompt]. *)
Definition generator : Type := string -> string -> result response.

(** The object [genai.Client()] returns, with its [generate_text] method when
    it has one. *)
Record client : Type := mk_client {
  client_generate_text : option generator
}.

(** A client module, with the attributes [call_gemini] looks at; [None] is an
    attribute the module does not have. *)
Record genai_module : Type := mk_module {
  configure : option (option string -> result unit);
  generate_text : option generator;
  Client : option (result client)
}.

(** The environment of one call: [os.environ] and the outcome of each of the
    two imports. *)
Record py_env : Type := mk_env {
  environ : string -> option string;
  import_google_generativeai : result genai_module;
  import_google_genai : result genai_module
}.

Definition no_client_hint : string :=
  "No supported Google Generative AI client found. Install the official package (e.g. `pip install google-generative-ai`) and set GOOGLE_API_KEY, or run without --call to only print prompts.".

(** [os.environ.get(a) or os.environ.get(b)] *)
Definition environ_get_or (env : py_env) (a b : string) : option string :=
  match environ env a with
  | Some s => if (s =? "")%string then environ env b else Some s
  | None => environ env b
  end.

(** [resp.get("candidates")[0].get("content")] *)
Definition first_candidate_content (cands : pyval) : result pyval :=
  match cands with
  | PList (PDict c :: _) => Ok (dict_get c "content" PNone)
  | PList [] => Err (Raise IndexError "list index out of range")
  | PList (v :: _) =>
      Err (Raise AttributeError
             ("'" ++ py_type_name v ++ "' object has no attribute 'get'"))
  | PStr s =>
      if (s =? "")%string then Err (Raise IndexError "string index out of range")
      else Err (Raise AttributeError "'str' object has no attribute 'get'")
  | PDict _ => Err (Raise KeyError "0")
  | v => Err (Raise TypeError
                ("'" ++ py_type_name v ++ "' object is not subscriptable"))
  end.

(** The [text] the first library's [generate_text] result is normalised to. *)
Definition normalise_text (resp : response) : result pyval :=
  match resp_text resp with
  | Some t => Ok t
  | None =>
      match resp with
      | RValue (PDict d) =>
          if dict_mem d "candidates"
          then first_candidate_content (dict_get d "candidates" PNone)
          else Ok (PStr (resp_str resp))
      | _ => Ok (PStr (resp_str resp))
      end
  end.

Definition gen_result (model : string) (text : pyval) (resp : response) : pydict :=
  [("model", PStr model); ("text", text); ("raw", PStr (resp_repr resp))].

(** A call whose exceptions are caught and dropped, as by
    [try: ... except Exception: pass]. *)
Definition swallow {A : Type} (r : result A) : unit := tt.

(** The first [try] block: [Ok (Some r)] when it returns [r], [Ok None] when
    it ends without returning, [Err e] when [e] is raised inside it. *)
Definition try_generativeai (env : py_env) (api_key : option string)
    (prompt model : string) : result (option pydict) :=
  let* genai := import_google_generativeai env in
  let _ := match configure genai with
           | Some f => swallow (f api_key)
           | None => tt
           end in
  match generate_text genai with
  | Some gen =>
      let* resp := gen model prompt in
      let* text := normalise_text resp in
      Ok (Some (gen_result model text resp))
  | None =>
      match Client genai with
      | Some make =>
          let* c := make in
          let* gen :=
            match client_generate_text c with
            | Some g => Ok g
            | None => Err (Raise AttributeError
                             "'Client' object has no attribute 'generate_text'")
            end in
          let* out := gen model prompt in
          let text := match resp_text out with
                      | Some t => t
                      | None => PStr (resp_str out)
                      end in
          Ok (Some (gen_result model text out))
      | None => Ok None
      end
  end.

(** The second [try] block, on [from google import genai]. *)
Definition try_google_genai (env : py_env) (api_key : option string)
    (prompt model : string) : result (option pydict) :=
  let* ggenai := import_google_genai env in
  let _ := match configure ggenai with
           | Some f => swallow (f api_key)
           | None => tt
           end in
  match generate_text ggenai with
  | Some gen =>
      let* resp := gen model prompt in
      let text := py_or (match resp_text resp with Some t => t | None => PNone end)
                        (PStr (resp_str resp)) in
      Ok (Some (gen_result model text resp))
  | None => Ok None
  end.

(** [call_gemini(prompt, model)]: each block's exception is caught by its
    [except Exception], after which control goes on to what follows. *)
Definition call_gemini (env : py_env) (prompt model : string) : result pydict :=
  let api_key := environ_get_or env "GOOGLE_API_KEY" "GOOGLE_API_KEY_JSON" in
  match try_generativeai env api_key prompt model with
  | Ok (Some r) => Ok r
  | _ =>
      match try_google_genai env api_key prompt model with
      | Ok (Some r) => Ok r
      | _ => Err (Raise ImportError no_client_hint)
      end
  end.

(** *** Batch runner *)

Inductive source_choice : Type := SrcCloud | SrcInputs.

(** The parsed command line. *)
Record args : Type := mk_args {
  source : source_choice;
  limit : Z;
  template : option string;
  template_file : option string;
  call : bool;
  model : string
}.

(** The files [main] works on: the two databases and the content of the
    results log ([None] while the log does not exist). *)
Record world : Type := mk_world {
  cloud_db : Cloud.db;
  inputs_db : dbfile in_cols;
  out_file : option string
}.

Definition nl : string := String newline EmptyString.

Definition default_template : string :=
  "Summarize the following text:" ++ nl ++ nl ++ "{text}" ++ nl ++ nl ++ "Summary:".

(** [args.template or default] *)
Definition template_or_default (a : args) : string :=
  match template a with
  | Some t => if (t =? "")%string then default_template else t
  | None => default_template
  end.

(** [Path(p).read_text()] *)
Definition read_text (fs : string -> option string) (path : string) : result string :=
  match fs path with
  | Some content => Ok content
  | None => Err (Raise FileNotFoundError
                   ("[Errno 2] No such file or directory: " ++ repr_str path))
  end.

(** The template [main] uses: the content of [--template-file] when that is
    given, else [--template], else the default. *)
Definition load_template (fs : string -> option string) (a : args) : result string :=
  match template_file a with
  | Some path =>
      if negb (path =? "")%string then read_text fs path
      else Ok (template_or_default a)
  | None => Ok (template_or_default a)
  end.

(** The dict written for one record: [envs] gives the environment the call
    for this record runs in. *)
Definition record_result (env : py_env) (a : args) (rec : pydict) (prompt : string)
    : pydict :=
  let result := [("record", PDict rec); ("prompt", PStr prompt); ("response", PNone)] in
  if call a then
    match call_gemini env prompt (model a) with
    | Ok resp => dict_set result "response" (PDict resp)
    | Err e =>
        if is_ImportError e then dict_set result "error" (PStr (exc_msg e))
        else dict_set result "error" (PStr (exc_msg e))
    end
  else result.

(** The loop of [main] over the records, from the [i]-th on: the content of
    the log after it, and the exception that ended it early, if any. *)
Fixpoint run_records (envs : nat -> py_env) (a : args) (tmpl : string)
    (i : nat) (records : list pydict) (out : string) : string * result unit :=
  match records with
  | [] => (out, Ok tt)
  | rec :: rest =>
      match build_prompt tmpl rec with
      | Err e => (out, Err e)
      | Ok prompt =>
          let result := record_result (envs i) a rec prompt in
          run_records envs a tmpl (S i) rest
            (out ++ json_dumps false (PDict result) ++ nl)
      end
  end.

Section Main.

Variable json_loads : string -> option pyval.

(** The records [main] reads, from the source chosen on the command line. *)
Definition read_records (a : args) (w : world) : result (list pydict) :=
  match source a with
  | SrcCloud => read_cloud_strings (Some (limit a)) (cloud_db w)
  | SrcInputs => read_inputs json_loads (Some (limit a)) (inputs_db w)
  end.

(** [main(argv)] after argument parsing.  [fs] gives the content of the text
    files that exist, [envs i] the environment of the [i]-th generation call.
    Console output is not modelled. *)
Definition main (fs : string -> option string) (envs : nat -> py_env)
    (a : args) (w : world) : world * result Z :=
  match load_template fs a with
  | Err e => (w, Err e)
  | Ok tmpl =>
      match read_records a w with
      | Err e => (w, Err e)
      | Ok [] => (w, Ok 0)
      | Ok records =>
          let out := match out_file w with Some c => c | None => EmptyString end in
          let (out', r) := run_records envs a tmpl O records out in
          (mk_world (cloud_db w) (inputs_db w) (Some out'),
           let* _ := r in Ok 0)
      end
  end.

End Main.

End Gemini.

(** ** Sequences of appends *)

(** [save_input] called once for each element of [cs], in order, with that
    element's text, source, processed and timestamp; the ids returned, or the
    first exception. *)
Fixpoint save_all (cs : list Storage.cols) (d : Storage.db)
    : Storage.db * result (list Z) :=
  match cs with
  | [] => (d, Ok [])
  | c :: rest =>
      match Storage.save_input (Storage.created_at c) (Some (Storage.text c))
              (Storage.source c) (Storage.processed c) d with
      | (d1, Err e) => (d1, Err e)
      | (d1, Ok id) =>
          match save_all rest d1 with
          | (d2, Err e) => (d2, Err e)
          | (d2, Ok ids) => (d2, Ok (id :: ids))
          end
      end
  end.

(** Rows in descending order of id. *)
Definition sorted_desc {C : Type} (l : list (Z * C)) : Prop :=
  StronglySorted (fun a b => fst b <= fst a) l.

(** ** Sample stores and environments *)

Definition two_inputs : Storage.db :=
  DbFile (Some (mk_table
    [(1, Storage.mk_cols "a" (Some "form") None "2025-01-01T00:00:00");
     (2, Storage.mk_cols "b" (Some "form") None "2025-01-01T00:00:01")] 2)).

Definition three_appends : list Storage.cols :=
  [Storage.mk_cols "a" (Some "form") None "2025-01-01T00:00:00";
   Storage.mk_cols "b" (Some "cli") (Some "B") "2025-01-01T00:00:01";
   Storage.mk_cols "c" None None "2025-01-01T00:00:02"].

(** A record whose [received] mapping has an empty [freeText] and a [text]. *)
Definition empty_freeText_record : pydict :=
  [("received", PDict [("freeText", PStr ""); ("text", PStr "x")])].

(** What a record field contributes to a prompt: [str] of its value, the
    empty string when the record lacks it. *)
Definition field_str (record : pydict) (k : string) : string :=
  match dict_lookup record k with
  | Some v => py_str v
  | None => ""
  end.

(** The number of occurrences of a character in a string. *)
Fixpoint count_char (c : ascii) (s : string) : nat :=
  match s with
  | EmptyString => O
  | String c' s' => (if (c' =? c)%char then 1 else 0) + count_char c s'
  end.

(** An environment in which [google.generativeai] is installed and its
    [generate_text] fails with a quota error, [google.genai] being absent. *)
Definition quota_module : Gemini.genai_module :=
  Gemini.mk_module (Some (fun _ => Ok tt))
    (Some (fun _ _ => Err (Raise RuntimeError "429 Quota exceeded")))
    None.

Definition quota_env : Gemini.py_env :=
  Gemini.mk_env (fun _ => Some "key")
    (Ok quota_module)
    (Err (Raise ImportError "cannot import name 'genai' from 'google'")).

(** An environment with no client library at all. *)
Definition bare_env : Gemini.py_env :=
  Gemini.mk_env (fun _ => None)
    (Err (Raise ModuleNotFoundError "No module named 'google'"))
    (Err (Raise ModuleNotFoundError "No module named 'google'")).

(** The cloud store with the records 1, 2, 3 holding a, b, c. *)
Definition abc_table (c1 c2 c3 : option string) (s : Z) : table Cloud.cols :=
  mk_table [(1, Cloud.mk_cols "a" c1); (2, Cloud.mk_cols "b" c2);
            (3, Cloud.mk_cols "c" c3)] s.

(** A run with calls on over the three sample records, the first call
    meeting the quota error and the others finding no client. *)
Definition sample_envs (i : nat) : Gemini.py_env :=
  match i with
  | O => quota_env
  | _ => bare_env
  end.

Definition sample_world : Gemini.world :=
  Gemini.mk_world
    (DbFile (Some (abc_table (Some "2025-01-01 00:00:00") None None 3)))
    NoFile None.

Definition call_args : Gemini.args :=
  Gemini.mk_args Gemini.SrcCloud 10 (Some "{id}: {text}") None true
    "text-bison-001".

(** A run over the inputs database, which does not exist. *)
Definition inputs_args : Gemini.args :=
  Gemini.mk_args Gemini.SrcInputs 10 None None false "text-bison-001".

(** ** The results log *)

(** The content of the results log, a log that does not exist having none. *)
Definition log_content (w : Gemini.world) : string :=
  match Gemini.out_file w with
  | Some c => c
  | None => ""
  end.

(** The lines of a log, one after the other. *)
Definition join (lines : list string) : string :=
  fold_right String.append "" lines.

(** The line written for a result dict. *)
Definition line_of (result : pydict) : string :=
  (json_dumps false (PDict result) ++ Gemini.nl)%string.

(** [line] is the one line logged for [rec] in a run that calls the
    generation client in environment [env]: it ends in the only newline it
    has, and before that is the JSON form of a dict holding the record, its
    prompt and either the response of the call or, under [error], the
    message of the exception the call raised. *)
Definition logged (env : Gemini.py_env) (a : Gemini.args) (tmpl : string)
    (rec : pydict) (line : string) : Prop :=
  exists prompt result,
    Gemini.build_prompt tmpl rec = Ok prompt /\
    line = line_of result /\
    count_char newline line = 1%nat /\
    dict_lookup result "record" = Some (PDict rec) /\
    dict_lookup result "prompt" = Some (PStr prompt) /\
    match Gemini.call_gemini env prompt (Gemini.model a) with
    | Ok resp =>
        dict_lookup result "response" = Some (PDict resp) /\
        dict_lookup result "error" = None
    | Err e =>
        dict_lookup result "response" = Some PNone /\
        dict_lookup result "error" = Some (PStr (exc_msg e))
    end.

(** The lines logged for the records, the [i]-th and following. *)
Fixpoint logged_from (envs : nat -> Gemini.py_env) (a : Gemini.args)
    (tmpl : string) (i : nat) (records : list pydict) (lines : list string)
    : Prop :=
  match records, lines with
  | [], [] => True
  | rec :: records', line :: lines' =>
      logged (envs i) a tmpl rec line /\
      logged_from envs a tmpl (S i) records' lines'
  | _, _ => False
  end.

(** A line of the log: the JSON form of a dict, then the only newline. *)
Definition whole_line (l : string) : Prop :=
  count_char newline l = 1%nat /\ exists result, l = line_of result.

(** The database file the run reads does not exist. *)
Definition source_db_missing (a : Gemini.args) (w : Gemini.world) : bool :=
  match Gemini.source a with
  | Gemini.SrcCloud =>
      match Gemini.cloud_db w with NoFile => true | _ => false end
  | Gemini.SrcInputs =>
      match Gemini.inputs_db w with NoFile => true | _ => false end
  end.

(** ** [api.py] *)

Module Api.

(** A response: the dict handed to [jsonify] and the status code. *)
Definition http_response : Type := (pydict * Z)%type.

(** [home()]: [jsonify] of a constant dict raises nothing. *)
Definition home : http_response :=
  ([("message", PStr "Flask API is running successfully!")], 200).

(** [receive_data()].  [get_json] is the outcome of
    [request.get_json(force=True)]: the parsed body, or the exception it
    raises on a body that is not JSON.  The call is inside the [try], so the
    exception is answered by the [except Exception] branch. *)
Definition receive_data (get_json : result pyval) : http_response :=
  match get_json with
  | Ok data =>
      if negb (truthy data)
      then ([("status", PStr "failed");
             ("message", PStr "No JSON data received")], 400)
      else ([("status", PStr "success");
             ("message", PStr "Data received successfully");
             ("received_data", data)], 200)
  | Err e =>
      ([("status", PStr "error");
        ("message", PStr ("An error occurred: " ++ exc_msg e))], 500)
  end.

(** [not_found(e)] and [server_error(e)] *)
Definition not_found : http_response :=
  ([("error", PStr "Route not found")], 404).

Definition server_error : http_response :=
  ([("error", PStr "Internal server error")], 500).

End Api.

(** ** Stores as the functions leave them *)

(** The table of a database file, a missing one counting as empty. *)
Definition db_table {C : Type} (d : dbfile C) : table C :=
  match d with
  | DbFile (Some t) => t
  | _ => empty_table
  end.

(** Rows stored in strictly ascending order of id. *)
Definition rows_ascending {C : Type} (l : list (Z * C)) : Prop :=
  StronglySorted (fun a b => fst a < fst b) l.

(** The shape inserts keep: rows in strictly ascending order of id, no id
    above the sequence value. *)
Definition table_wf {C : Type} (t : table C) : Prop :=
  rows_ascending (rows t) /\ Forall (fun r => fst r <= seq t) (rows t).

Definition db_wf {C : Type} (d : dbfile C) : Prop := table_wf (db_table d).

(** [store_txt_file_in_cloud] called once for each (path, timestamp) of
    [items], in order; the ids returned, or the first exception. *)
Fixpoint store_all (fs : string -> option string)
    (items : list (string * string)) (d : Cloud.db)
    : Cloud.db * result (list Z) :=
  match items with
  | [] => (d, Ok [])
  | (path, now) :: rest =>
      match Cloud.store_txt_file_in_cloud fs now path d with
      | (d1, Err e) => (d1, Err e)
      | (d1, Ok id) =>
          match store_all fs rest d1 with
          | (d2, Err e) => (d2, Err e)
          | (d2, Ok ids) => (d2, Ok (id :: ids))
          end
      end
  end.

(** The row a successful [store_txt_file_in_cloud] of an item writes. *)
Definition stored_cols (fs : string -> option string) (item : string * string)
    : Cloud.cols :=
  Cloud.mk_cols (match fs (fst item) with Some t => t | None => "" end)
    (Some (snd item)).

(** ** Occurrences and value kinds *)

(** [old in s] *)
Fixpoint occurs (old s : string) : bool :=
  match s with
  | EmptyString => prefix old s
  | String _ s' => prefix old s || occurs old s'
  end.

(** [isinstance(v, str)] *)
Definition is_str (v : pyval) : bool :=
  match v with
  | PStr _ => true
  | _ => false
  end.

(** ** More sample data *)

(** An environment whose first library answers with an object that has a
    [text] attribute. *)
Definition working_env : Gemini.py_env :=
  Gemini.mk_env (fun _ => Some "key")
    (Ok (Gemini.mk_module (Some (fun _ => Ok tt))
           (Some (fun _ prompt =>
                    Ok (Gemini.RObject (Some (PStr "A summary."))
                          "A summary." "<Completion>")))
           None))
    (Err (Raise ImportError "cannot import name 'genai' from 'google'")).

(** An inputs table of three rows; the [received] of row 2 parses to a
    mapping whose [freeText] is a number. *)
Definition sample_inputs : table Gemini.in_cols :=
  mk_table
    [(1, Gemini.mk_in_cols (Gemini.SqlText "/a") (Gemini.SqlText "plain") Gemini.SqlNull (Gemini.SqlText "t1"));
     (2, Gemini.mk_in_cols (Gemini.SqlText "/b") (Gemini.SqlText "{numeric}") Gemini.SqlNull (Gemini.SqlText "t2"));
     (3, Gemini.mk_in_cols (Gemini.SqlText "/c") Gemini.SqlNull Gemini.SqlNull (Gemini.SqlText "t3"))] 3.

(** A [json.loads] that knows one document. *)
Definition sample_loads (s : string) : option pyval :=
  if (s =? "{numeric}")%string then Some (PDict [("freeText", PInt 5)]) else None.

Definition inputs_world : Gemini.world :=
  Gemini.mk_world NoFile (DbFile (Some sample_inputs)) (Some "kept").

Definition tableless_world : Gemini.world :=
  Gemini.mk_world (DbFile None) NoFile None.

Definition dry_args : Gemini.args :=
  Gemini.mk_args Gemini.SrcCloud (-1) (Some "{id}: {text}") None false
    "text-bison-001".

Definition sample_files (path : string) : option string :=
  if (path =? "one.txt")%string then Some "first"
  else if (path =? "two.txt")%string then Some "second"
  else None.

(** * Facts *)

Local Open Scope list_scope.

(** ** Ordering and limits *)

Section Ordering.

Context {C : Type}.
Implicit Types (r : Z * C) (l : list (Z * C)).

Lemma insert_desc_length r l :
  List.length (insert_desc r l) = S (List.length l).
Proof.
  induction l as [|x l IH]; simpl; [reflexivity|].
  destruct (fst x <=? fst r); simpl; congruence.
Qed.

Lemma order_by_id_desc_length l :
  List.length (order_by_id_desc l) = List.length l.
Proof.
  induction l as [|x l IH]; simpl; [reflexivity|].
  now rewrite insert_desc_length, IH.
Qed.

Lemma insert_desc_perm r l : Permutation (r :: l) (insert_desc r l).
Proof.
  induction l as [|x l IH]; simpl; [apply Permutation_refl|].
  destruct (fst x <=? fst r); [apply Permutation_refl|].
  eapply perm_trans; [apply perm_swap|].
  now apply perm_skip.
Qed.

Lemma order_by_id_desc_perm l : Permutation l (order_by_id_desc l).
Proof.
  induction l as [|x l IH]; simpl; [constructor|].
  eapply perm_trans; [|apply insert_desc_perm].
  now apply perm_skip.
Qed.

Lemma insert_desc_sorted r l :
  sorted_desc l -> sorted_desc (insert_desc r l).
Proof.
  unfold sorted_desc.
  induction l as [|x l IH]; intros Hs; simpl.
  - constructor; constructor.
  - inversion Hs as [|? ? Hl Hx]; subst.
    destruct (fst x <=? fst r) eqn:E.
    + apply Z.leb_le in E.
      constructor; [assumption|].
      constructor; [assumption|].
      eapply Forall_impl; [|exact Hx].
      intros b Hb; simpl in *; lia.
    + apply Z.leb_gt in E.
      constructor; [now apply IH|].
      eapply Permutation_Forall; [apply insert_desc_perm|].
      constructor; [lia | assumption].
Qed.

Lemma order_by_id_desc_sorted l : sorted_desc (order_by_id_desc l).
Proof.
  induction l as [|x l IH]; simpl.
  - constructor.
  - now apply insert_desc_sorted.
Qed.

(** A row whose id is above every id of [l] comes first. *)
Lemma fold_insert_desc_top r l :
  Forall (fun x => fst x < fst r) l ->
  fold_right insert_desc [r] l = r :: order_by_id_desc l.
Proof.
  induction 1 as [|x l Hx Hl IH]; simpl; [reflexivity|].
  rewrite IH; simpl.
  destruct (fst r <=? fst x) eqn:E; [apply Z.leb_le in E; lia | reflexivity].
Qed.

Lemma order_by_id_desc_snoc r l :
  Forall (fun x => fst x < fst r) l ->
  order_by_id_desc (l ++ [r]) = r :: order_by_id_desc l.
Proof.
  intros H. unfold order_by_id_desc at 1.
  rewrite fold_right_app. simpl. now apply fold_insert_desc_top.
Qed.

Lemma sql_limit_pos (A : Type) (k : Z) (xs : list A) :
  0 < k -> sql_limit k xs = firstn (Z.to_nat k) xs.
Proof.
  intros H. unfold sql_limit.
  destruct (k <? 0) eqn:E; [apply Z.ltb_lt in E; lia | reflexivity].
Qed.

End Ordering.

(** ** Rowid assignment *)

Section Rowids.

Context {C : Type}.

Lemma max_rowid_bound (l : list (Z * C)) m :
  max_rowid l = Some m -> Forall (fun x => fst x <= m) l.
Proof.
  revert m. induction l as [|[i c] l IH]; intros m H; simpl in *.
  - constructor.
  - destruct (max_rowid l) as [m'|] eqn:E.
    + injection H as <-. constructor; simpl; [lia|].
      eapply Forall_impl; [|apply (IH m' eq_refl)].
      intros x Hx; simpl in *; lia.
    + injection H as <-. destruct l as [|[j c'] l].
      * constructor; [simpl; lia | constructor].
      * simpl in E. destruct (max_rowid l); discriminate.
Qed.

Lemma max_rowid_none (l : list (Z * C)) :
  max_rowid l = None -> l = [].
Proof.
  destruct l as [|[i c] l]; [reflexivity|].
  simpl. destruct (max_rowid l); discriminate.
Qed.

(** The id an insert assigns is above every id in the table and above the
    sequence value. *)
Lemma next_rowid_above (t : table C) v :
  next_rowid t = Ok v ->
  Forall (fun x => fst x < v) (rows t) /\ seq t < v.
Proof.
  unfold next_rowid. intros H.
  destruct (max_rowid (rows t)) as [m|] eqn:Em.
  - destruct (MAX_ROWID <=? m); [discriminate|].
    destruct (seq t =? MAX_ROWID); [discriminate|].
    apply max_rowid_bound in Em.
    destruct (m + 1 <? seq t + 1) eqn:E3; injection H as <-;
      [apply Z.ltb_lt in E3 | apply Z.ltb_ge in E3];
      (split; [|lia]);
      (eapply Forall_impl; [|exact Em]); intros x Hx; simpl in *; lia.
  - apply max_rowid_none in Em. rewrite Em.
    destruct (seq t =? MAX_ROWID); [discriminate|].
    destruct (1 <? seq t + 1) eqn:E3; injection H as <-;
      [apply Z.ltb_lt in E3 | apply Z.ltb_ge in E3];
      (split; [constructor | lia]).
Qed.

(** On a table without rows the assigned id is positive, and an id is
    assigned unless the sequence is exhausted. *)
Lemma next_rowid_empty (t : table C) :
  rows t = [] -> seq t <> MAX_ROWID ->
  exists v, next_rowid t = Ok v /\ 0 < v.
Proof.
  intros Hr Hs. unfold next_rowid. rewrite Hr. simpl.
  destruct (seq t =? MAX_ROWID) eqn:E; [apply Z.eqb_eq in E; contradiction|].
  destruct (1 <? seq t + 1) eqn:E3; eexists; (split; [reflexivity|]).
  - apply Z.ltb_lt in E3. lia.
  - lia.
Qed.

End Rowids.

(** ** The record stores *)

Lemma storage_init_rows (d : Storage.db) :
  rows (Storage.init_db d) = db_rows d.
Proof. destruct d as [|[t|]]; reflexivity. Qed.

Lemma cloud_ensure_rows (d : Cloud.db) :
  rows (Cloud.ensure_table d) = db_rows d.
Proof. destruct d as [|[t|]]; reflexivity. Qed.

(** What a successful [save_input] does to the store. *)
Lemma save_input_ok now text src proc d d1 id :
  Storage.save_input now text src proc d = (d1, Ok id) ->
  exists t,
    text = Some t /\
    next_rowid (Storage.init_db d) = Ok id /\
    d1 = DbFile (Some (mk_table
           (db_rows d ++ [(id, Storage.mk_cols t src proc now)]) id)).
Proof.
  unfold Storage.save_input, sqlite_insert. intros H.
  destruct text as [t|]; [|discriminate].
  exists t. split; [reflexivity|].
  destruct (next_rowid (Storage.init_db d)) as [v|e] eqn:E; simpl in H.
  - injection H as <- <-. now rewrite storage_init_rows.
  - discriminate.
Qed.

Lemma save_input_next now t src proc d id :
  next_rowid (Storage.init_db d) = Ok id ->
  Storage.save_input now (Some t) src proc d =
    (DbFile (Some (mk_table
       (db_rows d ++ [(id, Storage.mk_cols t src proc now)]) id)), Ok id).
Proof.
  intros H. unfold Storage.save_input, sqlite_insert.
  rewrite H. simpl. now rewrite storage_init_rows.
Qed.

(** [get_all] without a limit lists every row, most recent first, and leaves
    an initialised store as it is. *)
Lemma get_all_unlimited t :
  Storage.get_all None (DbFile (Some t)) =
    (DbFile (Some t), Ok (map Storage.record (order_by_id_desc (rows t)))).
Proof. reflexivity. Qed.

Lemma save_all_rows cs : forall d d' ids,
  save_all cs d = (d', Ok ids) ->
  List.length ids = List.length cs /\
  db_rows d' = db_rows d ++ combine ids cs /\
  StronglySorted Z.lt ids /\
  Forall (fun i => Forall (fun x => fst x < i) (db_rows d)) ids /\
  (cs <> [] -> exists t, d' = DbFile (Some t)).
Proof.
  induction cs as [|c cs IH]; intros d d' ids H; cbn [save_all] in H.
  - injection H as <- <-. simpl. rewrite app_nil_r.
    repeat split; try constructor. congruence.
  - destruct (Storage.save_input (Storage.created_at c) (Some (Storage.text c))
                (Storage.source c) (Storage.processed c) d)
      as [d1 [id|e]] eqn:E1; [|discriminate].
    destruct (save_all cs d1) as [d2 [ids'|e]] eqn:E2; [|discriminate].
    injection H as <- <-.
    apply save_input_ok in E1 as (t & Ht & Hn & ->). injection Ht as <-.
    apply next_rowid_above in Hn as [Hab _]. rewrite storage_init_rows in Hab.
    destruct (IH _ _ _ E2) as (Hl & Hr & Hs & Hf & Hd). simpl in Hr, Hf.
    split; [simpl; congruence|].
    split; [rewrite Hr, <- app_assoc; destruct c; reflexivity|].
    split; [|split].
    + constructor; [assumption|].
      eapply Forall_impl; [|exact Hf]. intros i Hi.
      apply Forall_app in Hi as [_ Hi]. now inversion Hi.
    + constructor; [assumption|].
      eapply Forall_impl; [|exact Hf]. intros i Hi.
      now apply Forall_app in Hi as [Hi _].
    + intros _. destruct cs as [|c' cs'].
      * simpl in E2. injection E2 as <- _. eauto.
      * apply Hd. discriminate.
Qed.

(** Listing in descending id order after rows with increasing ids, all above
    the old ones, were added at the end: the new rows reversed, then the old
    listing. *)
Lemma order_by_id_desc_app {C : Type} (new old : list (Z * C)) :
  StronglySorted Z.lt (map fst new) ->
  Forall (fun i => Forall (fun x => fst x < i) old) (map fst new) ->
  order_by_id_desc (old ++ new) = rev new ++ order_by_id_desc old.
Proof.
  induction new as [|r new IH] using rev_ind; intros Hs Hf.
  - now rewrite app_nil_r.
  - rewrite app_assoc, rev_unit. simpl.
    rewrite map_app in Hs, Hf. simpl in Hs, Hf.
    apply Forall_app in Hf as [Hf1 Hf2].
    rewrite order_by_id_desc_snoc.
    + f_equal. apply IH; [|assumption].
      clear -Hs. induction (map fst new) as [|a l IHl]; [constructor|].
      simpl in Hs. inversion Hs as [|? ? Hl Ha]; subst.
      constructor; [now apply IHl|]. now apply Forall_app in Ha as [Ha _].
    + apply Forall_app. split; [now inversion Hf2|].
      clear -Hs. induction new as [|a l IHl]; [constructor|].
      simpl in Hs. inversion Hs as [|? ? Hl Ha]; subst.
      constructor; [|now apply IHl].
      apply Forall_app in Ha as [_ Ha]. now inversion Ha.
Qed.

Lemma get_all_none_snd (d : Storage.db) :
  snd (Storage.get_all None d) =
    Ok (map Storage.record (order_by_id_desc (db_rows d))).
Proof. unfold Storage.get_all. simpl. now rewrite storage_init_rows. Qed.

Lemma get_all_keeps_rows limit (d : Storage.db) :
  db_rows (fst (Storage.get_all limit d)) = db_rows d.
Proof. unfold Storage.get_all. simpl. apply storage_init_rows. Qed.

Lemma save_input_keeps_rows now text src proc (d : Storage.db) :
  exists extra,
    db_rows (fst (Storage.save_input now text src proc d)) = db_rows d ++ extra.
Proof.
  unfold Storage.save_input, sqlite_insert.
  destruct text as [t|]; [|exists []; simpl; now rewrite app_nil_r].
  destruct (next_rowid (Storage.init_db d)) as [v|e]; simpl.
  - eexists. rewrite storage_init_rows. reflexivity.
  - exists []. now rewrite app_nil_r, storage_init_rows.
Qed.

(** ** C1: rejected appends *)

(** C1, as stated, fails: [save_input] with the empty string on a missing
    database succeeds with id 1 and writes a row whose text is empty. *)
Lemma save_input_empty_text_is_stored :
  Storage.save_input "2025-01-01T00:00:00" (Some "") (Some "form") None NoFile
  = (DbFile (Some (mk_table
       [(1, Storage.mk_cols "" (Some "form") None "2025-01-01T00:00:00")] 1)),
     Ok 1).
Proof. reflexivity. Qed.

(** C1 (amended): for every store, [save_input] with [None] fails with a
    [ValueError] and [store_txt_file_in_cloud] on a text file that is empty
    fails with a [ValueError]; in both cases the store is left exactly as it
    was, so no row is written. *)
Theorem rejected_appends_write_nothing :
  (forall now src proc (d : Storage.db),
     Storage.save_input now None src proc d
     = (d, Err (Raise ValueError "text must not be None")))
  /\
  (forall fs now path (d : Cloud.db),
     fs path = Some "" ->
     Cloud.store_txt_file_in_cloud fs now path d
     = (d, Err (Raise ValueError "Text file is empty."))).
Proof.
  split.
  - reflexivity.
  - intros fs now path d H. unfold Cloud.store_txt_file_in_cloud.
    now rewrite H.
Qed.

Lemma rejected_appends_write_nothing_witness :
  Cloud.store_txt_file_in_cloud (fun _ => Some "") "2025-01-01 00:00:00"
    "input.txt" NoFile
  = (NoFile, Err (Raise ValueError "Text file is empty.")).
Proof.
  apply (proj2 rejected_appends_write_nothing (fun _ => Some "")).
  reflexivity.
Defined.

(** ** C3: limits *)

(** C3, as stated, fails at k = 0: on a store of two records [get_all] with
    [limit=0] returns both records, not min(0, 2) = 0 of them. *)
Lemma get_all_limit_zero_lists_everything :
  exists recs,
    snd (Storage.get_all (Some 0) two_inputs) = Ok recs /\
    List.length recs = 2%nat /\
    List.length recs <> Nat.min 0 (List.length (db_rows two_inputs)).
Proof. eexists. split; [reflexivity|]. split; [reflexivity|discriminate]. Qed.

(** C3 (amended): for every positive integer k up to 2^63 - 1 and every
    store holding n records, [get_all] and [read_cloud_strings] with
    [limit=k] return exactly min(k, n) records, namely the first min(k, n)
    of the listing of all records in descending order of id; that listing
    is sorted and holds each stored row once. *)
Theorem limit_returns_min_k_n (k : Z) :
  0 < k <= MAX_ROWID ->
  (forall d : Storage.db,
     exists recs,
       Storage.get_all (Some k) d = (DbFile (Some (Storage.init_db d)), Ok recs) /\
       List.length recs = Nat.min (Z.to_nat k) (List.length (db_rows d)) /\
       recs = map Storage.record
                (firstn (Z.to_nat k) (order_by_id_desc (db_rows d))))
  /\
  (forall t : table Cloud.cols,
     exists recs,
       Gemini.read_cloud_strings (Some k) (DbFile (Some t)) = Ok recs /\
       List.length recs = Nat.min (Z.to_nat k) (List.length (rows t)) /\
       recs = map Gemini.cloud_record
                (firstn (Z.to_nat k) (order_by_id_desc (rows t))))
  /\
  (forall (C : Type) (l : list (Z * C)),
     sorted_desc (order_by_id_desc l) /\ Permutation l (order_by_id_desc l)).
Proof.
  intros [Hpos Hmax].
  assert (Hz : (k =? 0) = false) by (apply Z.eqb_neq; lia).
  assert (Hin : in_int64 k = true).
  { unfold in_int64, MIN_INT64. apply andb_true_iff.
    split; apply Z.leb_le; [lia | assumption]. }
  split; [|split].
  - intros d. eexists. unfold Storage.get_all. rewrite Hz, Hin.
    rewrite sql_limit_pos by assumption. simpl.
    split; [reflexivity|]. rewrite storage_init_rows.
    split; [|reflexivity].
    now rewrite length_map, length_firstn, order_by_id_desc_length.
  - intros t. eexists. unfold Gemini.read_cloud_strings, Gemini.select_desc.
    rewrite Hz, Hin. rewrite sql_limit_pos by assumption. simpl.
    split; [reflexivity|]. split; [|reflexivity].
    now rewrite length_map, length_firstn, order_by_id_desc_length.
  - intros C l. split; [apply order_by_id_desc_sorted | apply order_by_id_desc_perm].
Qed.

Lemma limit_returns_min_k_n_witness :
  exists recs,
    Storage.get_all (Some 1) two_inputs
    = (DbFile (Some (Storage.init_db two_inputs)), Ok recs) /\
    List.length recs = Nat.min (Z.to_nat 1) (List.length (db_rows two_inputs)) /\
    recs = map Storage.record
             (firstn (Z.to_nat 1) (order_by_id_desc (db_rows two_inputs))).
Proof.
  apply (proj1 (limit_returns_min_k_n 1 ltac:(unfold MAX_ROWID; lia))).
Defined.

(** ** C6: one append, then a listing *)

(** C6: for every non-empty string t, appending t to a store without rows
    (whose id sequence is not used up) succeeds with a positive id, and the
    listing that follows returns exactly one record, whose text is t and
    whose id is that id.  This holds for [save_input] with [get_all] and for
    [store_txt_file_in_cloud] with [read_all_strings_from_cloud]. *)
Theorem append_then_list_gives_one_record (t : string) :
  t <> "" ->
  (forall now src proc (d : Storage.db),
     db_rows d = [] -> seq (Storage.init_db d) <> MAX_ROWID ->
     exists id d1 rec,
       Storage.save_input now (Some t) src proc d = (d1, Ok id) /\
       0 < id /\
       Storage.get_all None d1 = (d1, Ok [rec]) /\
       dict_lookup rec "text" = Some (PStr t) /\
       dict_lookup rec "id" = Some (PInt id))
  /\
  (forall fs now path (d : Cloud.db),
     fs path = Some t ->
     db_rows d = [] -> seq (Cloud.ensure_table d) <> MAX_ROWID ->
     exists id d1 rec,
       Cloud.store_txt_file_in_cloud fs now path d = (d1, Ok id) /\
       0 < id /\
       Cloud.read_all_strings_from_cloud d1 = (d1, Ok [rec]) /\
       dict_lookup rec "text" = Some (PStr t) /\
       dict_lookup rec "id" = Some (PInt id)).
Proof.
  intros Hne. split.
  - intros now src proc d Hr Hs.
    destruct (next_rowid_empty (Storage.init_db d)) as (id & Hn & Hpos);
      [now rewrite storage_init_rows | assumption |].
    exists id. eexists. eexists.
    rewrite (save_input_next now t src proc d id Hn), Hr.
    split; [reflexivity|]. split; [assumption|].
    split; [reflexivity|]. split; reflexivity.
  - intros fs now path d Hf Hr Hs.
    destruct (next_rowid_empty (Cloud.ensure_table d)) as (id & Hn & Hpos);
      [now rewrite cloud_ensure_rows | assumption |].
    exists id. eexists. eexists.
    unfold Cloud.store_txt_file_in_cloud, sqlite_insert. rewrite Hf.
    destruct (t =? "")%string eqn:E; [apply String.eqb_eq in E; contradiction|].
    rewrite Hn. simpl. rewrite cloud_ensure_rows, Hr.
    split; [reflexivity|]. split; [assumption|].
    split; [reflexivity|]. split; reflexivity.
Qed.

Lemma append_then_list_gives_one_record_witness :
  exists id d1 rec,
    Storage.save_input "2025-01-01T00:00:00" (Some "hello") (Some "form") None NoFile
    = (d1, Ok id) /\
    0 < id /\
    Storage.get_all None d1 = (d1, Ok [rec]) /\
    dict_lookup rec "text" = Some (PStr "hello") /\
    dict_lookup rec "id" = Some (PInt id).
Proof.
  apply (proj1 (append_then_list_gives_one_record "hello" ltac:(discriminate))
           "2025-01-01T00:00:00" (Some "form") None NoFile).
  - reflexivity.
  - discriminate.
Defined.

(** ** C7: sequences of appends *)

(** C7: when n appends in sequence all succeed, the ids they return are
    strictly increasing in insertion order, the store afterwards holds the
    rows it held before followed by the n new rows, and [get_all], which
    lists in descending id order, returns the new records in exactly
    reversed insertion order (followed by the records that were there
    before).  No operation updates or deletes a row: [get_all] leaves the
    rows as they are and [save_input] only ever adds rows at the end. *)
Theorem appends_are_ordered_and_kept (cs : list Storage.cols)
    (d d' : Storage.db) (ids : list Z) :
  save_all cs d = (d', Ok ids) ->
  List.length ids = List.length cs /\
  StronglySorted Z.lt ids /\
  db_rows d' = db_rows d ++ combine ids cs /\
  snd (Storage.get_all None d')
    = Ok (map Storage.record
            (rev (combine ids cs) ++ order_by_id_desc (db_rows d))) /\
  (forall limit d0, db_rows (fst (Storage.get_all limit d0)) = db_rows d0) /\
  (forall now text src proc d0,
     exists extra,
       db_rows (fst (Storage.save_input now text src proc d0))
       = db_rows d0 ++ extra).
Proof.
  intros H.
  destruct (save_all_rows cs d d' ids H) as (Hl & Hr & Hs & Hf & _).
  assert (Hfst : map fst (combine ids cs) = ids).
  { clear -Hl. revert cs Hl.
    induction ids as [|i ids IH]; intros [|c cs] Hl; simpl in *;
      try discriminate; [reflexivity|].
    f_equal. apply IH. congruence. }
  repeat split; try assumption.
  - rewrite get_all_none_snd, Hr. f_equal. f_equal.
    apply order_by_id_desc_app; now rewrite Hfst.
  - apply get_all_keeps_rows.
  - apply save_input_keeps_rows.
Qed.

Lemma appends_are_ordered_and_kept_witness :
  StronglySorted Z.lt [1; 2; 3] /\
  snd (Storage.get_all None (fst (save_all three_appends NoFile)))
    = Ok (map Storage.record
            (rev (combine [1; 2; 3] three_appends) ++ order_by_id_desc [])).
Proof.
  pose proof (appends_are_ordered_and_kept three_appends NoFile
                (fst (save_all three_appends NoFile)) [1; 2; 3] eq_refl)
    as (_ & Hs & _ & Hg & _).
  split; assumption.
Defined.

(** ** Literal replacement *)

Lemma prefix_app (a s : string) : prefix a (a ++ s)%string = true.
Proof.
  induction a as [|c a IH]; simpl; [now destruct s|].
  destruct (ascii_dec c c) as [_|Hc]; [exact IH | now elim Hc].
Qed.

(** Passing over the rest of a matched occurrence. *)
Lemma replace_from_skip (old new a s : string) :
  replace_from old new (String.length a) (a ++ s)%string
  = replace_from old new O s.
Proof.
  induction a as [|c a IH]; simpl; [reflexivity|exact IH].
Qed.

(** An occurrence at the head is replaced and the scan goes on after it. *)
Lemma py_replace_head (old new s : string) :
  old <> "" ->
  py_replace (old ++ s)%string old new = (new ++ py_replace s old new)%string.
Proof.
  intros Hne. destruct old as [|c o]; [contradiction|].
  unfold py_replace.
  change ((String c o ++ s)%string) with (String c (o ++ s)%string).
  cbn [replace_from].
  change (String c (o ++ s)%string) with ((String c o ++ s)%string).
  rewrite prefix_app. cbn [String.length Nat.pred].
  now rewrite replace_from_skip.
Qed.

(** Where no occurrence starts, the character is kept. *)
Lemma py_replace_keep (old new : string) (c : ascii) (s : string) :
  old <> "" ->
  prefix old (String c s) = false ->
  py_replace (String c s) old new = String c (py_replace s old new).
Proof.
  intros Hne Hp. destruct old as [|c' o]; [contradiction|].
  unfold py_replace. cbn [replace_from]. now rewrite Hp.
Qed.

Lemma py_replace_empty (old new : string) :
  old <> "" -> py_replace "" old new = "".
Proof. intros Hne. destruct old; [contradiction|reflexivity]. Qed.

(** ** The prompt builder *)

Lemma dict_mem_lookup (d : pydict) (k : string) :
  dict_mem d k = match dict_lookup d k with Some _ => true | None => false end.
Proof. reflexivity. Qed.

Lemma dict_get_field_str (record : pydict) (k : string) :
  py_str (dict_get record k (PStr "")) = field_str record k.
Proof. unfold dict_get, field_str. now destruct (dict_lookup record k). Qed.

(** With a string (or a falsy value) as resolved text the builder does not
    raise. *)
Lemma build_prompt_of_string (tmpl : string) (record : pydict) (s : string) :
  Gemini.resolve_text record = PStr s ->
  Gemini.build_prompt tmpl record
  = Ok (Gemini.fill_fields record (py_replace tmpl "{text}" s)).
Proof.
  intros H. unfold Gemini.build_prompt. rewrite H. unfold py_or. simpl.
  destruct (s =? "")%string eqn:E; simpl; [|reflexivity].
  apply String.eqb_eq in E. now subst.
Qed.

Lemma build_prompt_of_falsy (tmpl : string) (record : pydict) :
  truthy (Gemini.resolve_text record) = false ->
  Gemini.build_prompt tmpl record
  = Ok (Gemini.fill_fields record (py_replace tmpl "{text}" "")).
Proof.
  intros H. unfold Gemini.build_prompt, py_or. now rewrite H.
Qed.

(** ** C4: the text taken from [received] *)

(** C4, as stated, fails: a [freeText] key that is present with an empty
    value is passed over, and the value of [text] is used. *)
Lemma present_empty_freeText_is_skipped :
  dict_lookup [("freeText", PStr ""); ("text", PStr "x")] "freeText"
    = Some (PStr "") /\
  Gemini.resolve_text empty_freeText_record = PStr "x" /\
  Gemini.build_prompt "{text}" empty_freeText_record = Ok "x".
Proof. repeat split. Qed.

(** C4 (amended): when the record has no [text] field but has a [received]
    field that is a mapping, the text value is the first truthy one of the
    mapping's [freeText] value and its [text] value (an absent key counting
    as None), else the JSON serialization of the whole mapping; a text value
    that is a string is what [{text}] is replaced by; in particular
    build_prompt("{text}", {"received": {"freeText": "hi"}}) returns "hi". *)
Theorem text_resolved_from_received (record d : pydict) :
  dict_lookup record "text" = None ->
  dict_lookup record "received" = Some (PDict d) ->
  let freeText := dict_get d "freeText" PNone in
  let text := dict_get d "text" PNone in
  (truthy freeText = true -> Gemini.resolve_text record = freeText) /\
  (truthy freeText = false -> truthy text = true ->
   Gemini.resolve_text record = text) /\
  (truthy freeText = false -> truthy text = false ->
   Gemini.resolve_text record = PStr (json_dumps true (PDict d))) /\
  (forall tmpl s,
     Gemini.resolve_text record = PStr s ->
     Gemini.build_prompt tmpl record
     = Ok (Gemini.fill_fields record (py_replace tmpl "{text}" s))) /\
  Gemini.build_prompt "{text}" [("received", PDict [("freeText", PStr "hi")])]
  = Ok "hi".
Proof.
  intros Ht Hr freeText text.
  assert (Hres : Gemini.resolve_text record
                 = py_or (py_or freeText text) (PStr (json_dumps true (PDict d)))).
  { assert (Hg : dict_get record "received" PNone = PDict d)
      by (unfold dict_get; now rewrite Hr).
    unfold Gemini.resolve_text. now rewrite !dict_mem_lookup, Ht, Hr, Hg. }
  repeat split.
  - intros H. rewrite Hres. unfold py_or. now rewrite H, H.
  - intros H1 H2. rewrite Hres. unfold py_or. now rewrite H1, H2.
  - intros H1 H2. rewrite Hres. unfold py_or. now rewrite H1, H2.
  - intros tmpl s. apply build_prompt_of_string.
Qed.

Lemma text_resolved_from_received_witness :
  Gemini.resolve_text
    [("id", PInt 7); ("received", PDict [("text", PStr "body")])]
  = PStr "body".
Proof.
  apply (text_resolved_from_received
           [("id", PInt 7); ("received", PDict [("text", PStr "body")])]
           [("text", PStr "body")] eq_refl eq_refl); reflexivity.
Defined.

(** ** C9: placeholder replacement *)

(** C9 fails on the code: the placeholders [{id}], [{route}] and [{ts}] are
    replaced by [str] of the field value, and a [received] value that is not
    a mapping gives its [str] as text, but a [text] value that is not a
    string goes to [str.replace] as it is: for the record with the integer 5
    under [text] the builder does not return 5, it raises [TypeError]. *)
Lemma integer_text_raises_TypeError :
  Gemini.build_prompt "{text}" [("text", PInt 5)]
  = Err (Raise TypeError "replace() argument 2 must be str, not int").
Proof. reflexivity. Qed.

(** X17: for every template and every record whose text value is a
    string or falsy, the builder returns the template after replacing, in
    this order and each on the result of the one before, [{text}] by the
    text value (the empty string when it is falsy), then [{id}], [{route}]
    and [{ts}] by [str] of the field value, a field missing from the record
    substituting the empty string, then [{received}]; each replacement is a
    literal one, scanning from the left: an occurrence of the placeholder is
    replaced and the scan goes on after it, any other character is kept; in
    particular build_prompt("{id}-{route}", {"id": 5}) returns "5-". *)
Theorem placeholders_replaced_literally (tmpl : string) (record : pydict) :
  (exists s, Gemini.resolve_text record = PStr s)
  \/ truthy (Gemini.resolve_text record) = false ->
  let text := match Gemini.resolve_text record with PStr s => s | _ => "" end in
  Gemini.build_prompt tmpl record
  = Ok (py_replace
          (py_replace
             (py_replace
                (py_replace (py_replace tmpl "{text}" text)
                   "{id}" (field_str record "id"))
                "{route}" (field_str record "route"))
             "{ts}" (field_str record "ts"))
          "{received}" (json_dumps true (dict_get record "received" (PDict []))))
  /\
  (forall old new s, old <> "" ->
     py_replace (old ++ s)%string old new = (new ++ py_replace s old new)%string) /\
  (forall old new c s, old <> "" -> prefix old (String c s) = false ->
     py_replace (String c s) old new = String c (py_replace s old new)) /\
  (forall old new, old <> "" -> py_replace "" old new = "") /\
  Gemini.build_prompt "{id}-{route}" [("id", PInt 5)] = Ok "5-".
Proof.
  intros H text.
  split; [|split; [|split; [|split]]].
  - assert (Hb : Gemini.build_prompt tmpl record
                 = Ok (Gemini.fill_fields record (py_replace tmpl "{text}" text))).
    { destruct H as [[s Hs]|Hf].
      - subst text. rewrite Hs. now apply build_prompt_of_string.
      - subst text. rewrite (build_prompt_of_falsy _ _ Hf).
        destruct (Gemini.resolve_text record); try reflexivity.
        simpl in Hf. apply negb_false_iff, String.eqb_eq in Hf. now subst. }
    rewrite Hb. unfold Gemini.fill_fields. now rewrite !dict_get_field_str.
  - apply py_replace_head.
  - apply py_replace_keep.
  - apply py_replace_empty.
  - reflexivity.
Qed.

Lemma placeholders_replaced_literally_witness :
  Gemini.build_prompt "{ts}: {text} ({id})"
    [("id", PInt 3); ("text", PStr "c"); ("ts", PNone)]
  = Ok "None: c (3)".
Proof.
  apply (placeholders_replaced_literally "{ts}: {text} ({id})"
           [("id", PInt 3); ("text", PStr "c"); ("ts", PNone)]).
  left. exists "c". reflexivity.
Defined.

(** ** JSON text has no line break *)

Lemma pyval_nested_ind (P : pyval -> Prop) :
  P PNone ->
  (forall b, P (PBool b)) ->
  (forall z, P (PInt z)) ->
  (forall s, P (PStr s)) ->
  (forall l, Forall P l -> P (PList l)) ->
  (forall d, Forall (fun kv => P (snd kv)) d -> P (PDict d)) ->
  forall v, P v.
Proof.
  intros HN HB HI HS HL HD.
  fix IH 1. intros [|b|z|s|l|d].
  - exact HN.
  - apply HB.
  - apply HI.
  - apply HS.
  - apply HL. induction l as [|x l IHl]; constructor; [apply IH | exact IHl].
  - apply HD. induction d as [|[k x] d IHd]; constructor; [apply IH | exact IHd].
Qed.

Lemma count_char_app (c : ascii) (a b : string) :
  count_char c (a ++ b)%string = (count_char c a + count_char c b)%nat.
Proof.
  induction a as [|x a IH]; simpl; [reflexivity|]. rewrite IH. lia.
Qed.

Lemma count_char_flat_map (c : ascii) (f : ascii -> string) (s : string) :
  (forall x, count_char c (f x) = O) ->
  count_char c (str_flat_map f s) = O.
Proof.
  intros Hf. induction s as [|x s IH]; simpl; [reflexivity|].
  now rewrite count_char_app, Hf, IH.
Qed.

Lemma count_char_concat (c : ascii) (sep : string) (l : list string) :
  count_char c sep = O ->
  Forall (fun s => count_char c s = O) l ->
  count_char c (String.concat sep l) = O.
Proof.
  intros Hsep. induction 1 as [|s l Hs Hl IH]; simpl; [reflexivity|].
  destruct l as [|s' l']; [exact Hs|].
  now rewrite !count_char_app, Hs, Hsep, IH.
Qed.

Lemma json_escape_char_no_newline (ea : bool) (c : ascii) :
  count_char newline (json_escape_char ea c) = O.
Proof.
  destruct ea; destruct c as [[|] [|] [|] [|] [|] [|] [|] [|]];
    vm_compute; reflexivity.
Qed.

Lemma json_string_no_newline (ea : bool) (s : string) :
  count_char newline (json_string ea s) = O.
Proof.
  unfold json_string. cbn [count_char].
  rewrite count_char_app, count_char_flat_map
    by apply json_escape_char_no_newline.
  reflexivity.
Qed.

Lemma string_of_uint_no_newline (d : Decimal.uint) :
  count_char newline (NilEmpty.string_of_uint d) = O.
Proof. induction d; simpl; try reflexivity; exact IHd. Qed.

Lemma str_of_Z_no_newline (z : Z) : count_char newline (str_of_Z z) = O.
Proof.
  unfold str_of_Z, NilZero.string_of_int, NilZero.string_of_uint.
  destruct (Z.to_int z) as [d|d]; destruct d; try reflexivity;
    cbn [count_char]; simpl;
    apply string_of_uint_no_newline.
Qed.

(** [json.dumps] escapes every line break, so its output is one line. *)
Lemma json_dumps_no_newline (ea : bool) (v : pyval) :
  count_char newline (json_dumps ea v) = O.
Proof.
  induction v as [|b|z|s|l IHl|d IHd] using pyval_nested_ind.
  - reflexivity.
  - now destruct b.
  - apply str_of_Z_no_newline.
  - apply json_string_no_newline.
  - cbn [json_dumps]. rewrite !count_char_app, count_char_concat;
      [reflexivity | reflexivity |].
    apply Forall_map. exact IHl.
  - cbn [json_dumps]. rewrite !count_char_app, count_char_concat;
      [reflexivity | reflexivity |].
    apply Forall_map. eapply Forall_impl; [|exact IHd].
    intros kv Hkv. cbn beta.
    now rewrite !count_char_app, json_string_no_newline, Hkv.
Qed.

Lemma line_of_one_newline (result : pydict) :
  count_char newline (line_of result) = 1%nat.
Proof.
  unfold line_of. now rewrite count_char_app, json_dumps_no_newline.
Qed.

(** ** The generation client adapter *)

(** Whatever goes wrong, the only exception [call_gemini] raises is the
    [ImportError] with the install hint. *)
Lemma call_gemini_only_raises_hint env prompt model e :
  Gemini.call_gemini env prompt model = Err e ->
  e = Raise ImportError Gemini.no_client_hint.
Proof.
  unfold Gemini.call_gemini. intros H.
  destruct (Gemini.try_generativeai _ _ _ _) as [[r|]|e1];
    try discriminate;
    destruct (Gemini.try_google_genai _ _ _ _) as [[r'|]|e2];
    try discriminate; now injection H as <-.
Qed.

(** With neither library importable the call fails with the hint. *)
Lemma call_gemini_without_client env prompt model e1 e2 :
  Gemini.import_google_generativeai env = Err e1 ->
  Gemini.import_google_genai env = Err e2 ->
  Gemini.call_gemini env prompt model
  = Err (Raise ImportError Gemini.no_client_hint).
Proof.
  intros H1 H2.
  unfold Gemini.call_gemini, Gemini.try_generativeai, Gemini.try_google_genai.
  now rewrite H1, H2.
Qed.

(** ** C2: failures of the generation call *)

(** C2 fails on the code: with [google.generativeai] importable and its
    [generate_text] raising a quota error (a [RuntimeError]), [call_gemini]
    does not propagate that error; it raises the [ImportError] that carries
    the install hint, the error of the case where no library is importable. *)
Theorem quota_failure_is_raised_as_unavailable :
  Gemini.import_google_generativeai quota_env = Ok quota_module /\
  Gemini.generate_text quota_module
  = Some (fun _ _ => Err (Raise RuntimeError "429 Quota exceeded")) /\
  Gemini.call_gemini quota_env "Summarize: a" "text-bison-001"
  = Err (Raise ImportError Gemini.no_client_hint) /\
  Gemini.call_gemini bare_env "Summarize: a" "text-bison-001"
  = Err (Raise ImportError Gemini.no_client_hint).
Proof. repeat split. Qed.

(** ** The batch runner *)

Lemma str_app_assoc (a b c : string) :
  ((a ++ b) ++ c)%string = (a ++ (b ++ c))%string.
Proof. induction a as [|x a IH]; simpl; congruence. Qed.

Lemma str_app_nil_r (a : string) : (a ++ "")%string = a.
Proof. induction a as [|x a IH]; simpl; congruence. Qed.

(** The line a run with calls writes for one record. *)
Lemma record_result_logged env a tmpl rec prompt :
  Gemini.call a = true ->
  Gemini.build_prompt tmpl rec = Ok prompt ->
  logged env a tmpl rec (line_of (Gemini.record_result env a rec prompt)).
Proof.
  intros Hc Hb. exists prompt, (Gemini.record_result env a rec prompt).
  split; [assumption|]. split; [reflexivity|].
  split; [apply line_of_one_newline|].
  unfold Gemini.record_result. rewrite Hc.
  destruct (Gemini.call_gemini env prompt (Gemini.model a)) as [resp|e].
  - repeat split.
  - destruct (is_ImportError e); repeat split.
Qed.

(** With calls on, the loop writes one line for each record it is given,
    whatever the calls do, as long as each prompt can be built. *)
Lemma run_records_logged envs a tmpl : forall records i out,
  Gemini.call a = true ->
  Forall (fun r => is_ok (Gemini.build_prompt tmpl r) = true) records ->
  exists lines,
    Gemini.run_records envs a tmpl i records out
    = ((out ++ join lines)%string, Ok tt) /\
    List.length lines = List.length records /\
    logged_from envs a tmpl i records lines.
Proof.
  induction records as [|rec records IH]; intros i out Hc Hb.
  - exists []. simpl. now rewrite str_app_nil_r.
  - inversion Hb as [|? ? Hr Hrs]; subst.
    cbn [Gemini.run_records].
    destruct (Gemini.build_prompt tmpl rec) as [prompt|e] eqn:Hp; [|discriminate].
    destruct (IH (S i) (out ++ line_of (Gemini.record_result (envs i) a rec prompt))%string
                Hc Hrs) as (lines & Hrun & Hlen & Hlog).
    exists (line_of (Gemini.record_result (envs i) a rec prompt) :: lines).
    split; [|split].
    + unfold line_of in Hrun |- *. rewrite Hrun. cbn [join fold_right].
      now rewrite str_app_assoc.
    + simpl. congruence.
    + split; [now apply record_result_logged | assumption].
Qed.

(** ** C5: a run over the two most recent of three records *)

(** C5: with the cloud store holding exactly the records 1, 2, 3 with texts
    a, b, c, a run with limit 2, the default template and no call returns 0
    and appends exactly two lines to the results log: first the line of
    record 3, then the line of record 2, each the JSON form of a dict whose
    [response] is null and whose [prompt] is the default template with the
    record's text in place of [{text}]. *)
Theorem run_logs_two_most_recent (json_loads : string -> option pyval)
    (fs : string -> option string) (envs : nat -> Gemini.py_env)
    (c1 c2 c3 : option string) (s : Z) (inputs : dbfile Gemini.in_cols)
    (old : option string) (m : string) :
  let w := Gemini.mk_world (DbFile (Some (abc_table c1 c2 c3 s))) inputs old in
  let a := Gemini.mk_args Gemini.SrcCloud 2 None None false m in
  let line := fun (id : Z) (t : string) (c : option string) =>
    line_of [("record", PDict [("id", PInt id); ("text", PStr t);
                               ("ts", py_opt_str c)]);
             ("prompt", PStr ("Summarize the following text:" ++ Gemini.nl
                              ++ Gemini.nl ++ t ++ Gemini.nl ++ Gemini.nl
                              ++ "Summary:")%string);
             ("response", PNone)] in
  Gemini.main json_loads fs envs a w
  = (Gemini.mk_world (Gemini.cloud_db w) inputs
       (Some (log_content w ++ line 3 "c" c3 ++ line 2 "b" c2)%string),
     Ok 0)
  /\
  count_char newline (line 3 "c" c3 ++ line 2 "b" c2)%string = 2%nat.
Proof.
  intros w a line. split.
  - unfold Gemini.main. cbn -[line_of json_dumps log_content].
    unfold log_content. cbn [Gemini.out_file w].
    rewrite <- str_app_assoc. reflexivity.
  - subst line. cbn beta.
    now rewrite count_char_app, !line_of_one_newline.
Qed.

(** ** C8: a failed call does not end the batch *)

(** The prompt of a record that has a string under [text] can be built. *)
Lemma cloud_prompt_builds tmpl (r : Z * Cloud.cols) :
  is_ok (Gemini.build_prompt tmpl (Gemini.cloud_record r)) = true.
Proof.
  now rewrite (build_prompt_of_string tmpl (Gemini.cloud_record r)
                 (Cloud.text (snd r)) eq_refl).
Qed.

Lemma read_cloud_strings_records limit d records :
  Gemini.read_cloud_strings limit d = Ok records ->
  exists rs, records = map Gemini.cloud_record rs.
Proof.
  unfold Gemini.read_cloud_strings. destruct d as [|tbl].
  - intros [= <-]. now exists [].
  - destruct (Gemini.select_desc "cloud_strings" limit tbl) as [rs|e]; simpl.
    + intros [= <-]. now exists rs.
    + discriminate.
Qed.

(** C8: in a run with calls on, reading the cloud store or reading records
    whose prompts can all be built, exactly one line is appended to the
    results log for every record read, whatever the generation call of that
    or of any other record does: the run returns 0, the log grows by one
    line per record, in the order read, and the line of a record whose call
    failed holds the message of the exception under [error] (with
    [response] null), the line of any other record holding the response. *)
Theorem failed_call_is_logged_and_run_goes_on
    (json_loads : string -> option pyval) (fs : string -> option string)
    (envs : nat -> Gemini.py_env) (a : Gemini.args) (w : Gemini.world)
    (tmpl : string) (records : list pydict) :
  Gemini.call a = true ->
  Gemini.load_template fs a = Ok tmpl ->
  Gemini.read_records json_loads a w = Ok records ->
  Gemini.source a = Gemini.SrcCloud
  \/ Forall (fun r => is_ok (Gemini.build_prompt tmpl r) = true) records ->
  exists lines,
    snd (Gemini.main json_loads fs envs a w) = Ok 0 /\
    log_content (fst (Gemini.main json_loads fs envs a w))
    = (log_content w ++ join lines)%string /\
    List.length lines = List.length records /\
    logged_from envs a tmpl O records lines.
Proof.
  intros Hc Ht Hr Hsrc.
  assert (Hb : Forall (fun r => is_ok (Gemini.build_prompt tmpl r) = true) records).
  { destruct Hsrc as [Hs|Hb]; [|exact Hb].
    unfold Gemini.read_records in Hr. rewrite Hs in Hr.
    apply read_cloud_strings_records in Hr as [rs ->].
    apply Forall_map, Forall_forall. intros r _. apply cloud_prompt_builds. }
  unfold Gemini.main. rewrite Ht, Hr.
  destruct records as [|rec records].
  - exists []. simpl. now rewrite str_app_nil_r.
  - destruct (run_records_logged envs a tmpl (rec :: records) O
                (match Gemini.out_file w with Some c => c | None => EmptyString end)
                Hc Hb) as (lines & Hrun & Hlen & Hlog).
    exists lines. rewrite Hrun. simpl. repeat split; assumption.
Qed.

(** ** C10: a run against a missing database *)

(** C10: when the database file does not exist, [read_cloud_strings] and
    [read_inputs] return the empty list; a run whose source database is
    missing leaves the results log and the databases as they are, and, its
    template loaded (as it always is when no template file is given),
    returns 0. *)
Theorem missing_database_is_a_clean_no_op
    (json_loads : string -> option pyval) (fs : string -> option string)
    (envs : nat -> Gemini.py_env) (a : Gemini.args) (w : Gemini.world) :
  (forall limit, Gemini.read_cloud_strings limit NoFile = Ok []) /\
  (forall limit, Gemini.read_inputs json_loads limit NoFile = Ok []) /\
  (source_db_missing a w = true ->
   fst (Gemini.main json_loads fs envs a w) = w /\
   (forall tmpl, Gemini.load_template fs a = Ok tmpl ->
      Gemini.main json_loads fs envs a w = (w, Ok 0)) /\
   (Gemini.template_file a = None ->
      Gemini.main json_loads fs envs a w = (w, Ok 0))).
Proof.
  split; [reflexivity|]. split; [reflexivity|].
  intros Hm.
  assert (Hr : Gemini.read_records json_loads a w = Ok []).
  { unfold source_db_missing in Hm. unfold Gemini.read_records.
    destruct (Gemini.source a).
    - destruct (Gemini.cloud_db w); [reflexivity|discriminate].
    - destruct (Gemini.inputs_db w); [reflexivity|discriminate]. }
  assert (Hok : forall tmpl, Gemini.load_template fs a = Ok tmpl ->
                  Gemini.main json_loads fs envs a w = (w, Ok 0)).
  { intros tmpl Ht. unfold Gemini.main. now rewrite Ht, Hr. }
  split; [|split].
  - unfold Gemini.main.
    destruct (Gemini.load_template fs a); [now rewrite Hr | reflexivity].
  - exact Hok.
  - intros Hf. apply (Hok (Gemini.template_or_default a)).
    unfold Gemini.load_template. now rewrite Hf.
Qed.

Lemma failed_call_is_logged_and_run_goes_on_witness :
  exists lines,
    snd (Gemini.main (fun _ => None) (fun _ => None) sample_envs call_args
           sample_world) = Ok 0 /\
    log_content (fst (Gemini.main (fun _ => None) (fun _ => None) sample_envs
                        call_args sample_world))
    = (log_content sample_world ++ join lines)%string /\
    List.length lines = 3%nat /\
    logged_from sample_envs call_args "{id}: {text}" O
      (map Gemini.cloud_record
         (order_by_id_desc (rows (abc_table (Some "2025-01-01 00:00:00") None None 3))))
      lines.
Proof.
  apply (failed_call_is_logged_and_run_goes_on (fun _ => None) (fun _ => None)
           sample_envs call_args sample_world "{id}: {text}"
           (map Gemini.cloud_record
              (order_by_id_desc
                 (rows (abc_table (Some "2025-01-01 00:00:00") None None 3))))).
  - reflexivity.
  - reflexivity.
  - reflexivity.
  - left. reflexivity.
Defined.

Lemma missing_database_is_a_clean_no_op_witness :
  Gemini.main (fun _ => None) (fun _ => None) sample_envs inputs_args sample_world
  = (sample_world, Ok 0).
Proof.
  destruct (missing_database_is_a_clean_no_op (fun _ => None) (fun _ => None)
              sample_envs inputs_args sample_world) as (_ & _ & H).
  destruct (H eq_refl) as (_ & H1 & _).
  exact (H1 Gemini.default_template eq_refl).
Defined.

(** * Further properties of the code *)

(** ** Templates and prompts *)

Lemma occurs_empty_old (s : string) : occurs "" s = true.
Proof. destruct s; reflexivity. Qed.

(** A string in which [old] does not occur is left as it is. *)
Lemma py_replace_absent (s old new : string) :
  occurs old s = false -> py_replace s old new = s.
Proof.
  intros H. destruct old as [|c o]; [now rewrite occurs_empty_old in H|].
  unfold py_replace.
  induction s as [|x s IH]; [reflexivity|].
  cbn [occurs] in H. apply orb_false_iff in H as [Hp Ho].
  cbn [replace_from]. rewrite Hp. f_equal. now apply IH.
Qed.

(** X1: a template in which none of the five placeholders occurs is returned
    unchanged, for every record whose text value is a string or falsy. *)
Theorem template_without_placeholder_is_unchanged (tmpl : string)
    (record : pydict) :
  is_str (Gemini.resolve_text record) = true
  \/ truthy (Gemini.resolve_text record) = false ->
  occurs "{text}" tmpl = false ->
  occurs "{id}" tmpl = false ->
  occurs "{route}" tmpl = false ->
  occurs "{ts}" tmpl = false ->
  occurs "{received}" tmpl = false ->
  Gemini.build_prompt tmpl record = Ok tmpl.
Proof.
  intros Hv H1 H2 H3 H4 H5.
  assert (Hb : exists s, Gemini.build_prompt tmpl record
                 = Ok (Gemini.fill_fields record (py_replace tmpl "{text}" s))).
  { destruct Hv as [Hs|Hf].
    - destruct (Gemini.resolve_text record) as [| | |s| |] eqn:E; try discriminate.
      exists s. now apply build_prompt_of_string.
    - exists "". now apply build_prompt_of_falsy. }
  destruct Hb as [s ->]. unfold Gemini.fill_fields.
  now rewrite (py_replace_absent tmpl _ _ H1), (py_replace_absent tmpl _ _ H2),
    (py_replace_absent tmpl _ _ H3), (py_replace_absent tmpl _ _ H4),
    (py_replace_absent tmpl _ _ H5).
Qed.

Lemma template_without_placeholder_is_unchanged_witness :
  Gemini.build_prompt "Say {hello} to {name}"
    [("id", PInt 4); ("text", PStr "ignored")]
  = Ok "Say {hello} to {name}".
Proof.
  apply template_without_placeholder_is_unchanged;
    [left; reflexivity | reflexivity ..].
Defined.

(** X2: [build_prompt] returns a prompt exactly when the text value is a
    string or falsy; in every other case the exception it raises is a
    [TypeError], whatever the template. *)
Theorem build_prompt_raises_only_on_non_string_text (tmpl : string)
    (record : pydict) :
  is_ok (Gemini.build_prompt tmpl record)
  = is_str (Gemini.resolve_text record)
    || negb (truthy (Gemini.resolve_text record)) /\
  (forall e, Gemini.build_prompt tmpl record = Err e -> exc_cls e = TypeError).
Proof.
  unfold Gemini.build_prompt, py_or.
  destruct (Gemini.resolve_text record) as [|b|z|s|l|d]; cbn [truthy is_str].
  - split; [reflexivity | discriminate].
  - destruct b; (split; [reflexivity|]); [now intros e [= <-] | discriminate].
  - destruct (z =? 0); (split; [reflexivity|]); [discriminate | now intros e [= <-]].
  - destruct (s =? "")%string; (split; [reflexivity | discriminate]).
  - destruct l; (split; [reflexivity|]); [discriminate | now intros e [= <-]].
  - destruct d; (split; [reflexivity|]); [discriminate | now intros e [= <-]].
Qed.

(** ** Prompts of inputs records *)

(** X3: the prompt of a record read from the inputs table is always built
    when its [received] value is not a mapping: [{text}] is replaced by
    [str] of that value, so a row whose [received] is NULL contributes the
    text None. *)
Theorem inputs_prompt_of_non_mapping (json_loads : string -> option pyval)
    (tmpl : string) (r : Z * Gemini.in_cols) :
  let rec := Gemini.input_record json_loads r in
  let v := Gemini.load_received json_loads (Gemini.received (snd r)) in
  ((forall d, v <> PDict d) ->
   Gemini.build_prompt tmpl rec
   = Ok (Gemini.fill_fields rec (py_replace tmpl "{text}" (py_str v)))) /\
  (Gemini.received (snd r) = Gemini.SqlNull ->
   Gemini.build_prompt tmpl rec
   = Ok (Gemini.fill_fields rec (py_replace tmpl "{text}" "None"))).
Proof.
  intros rec v.
  assert (Hres : (forall d, v <> PDict d) ->
                 Gemini.resolve_text rec = PStr (py_str v)).
  { intros Hd. subst rec v. unfold Gemini.resolve_text, Gemini.input_record.
    cbn [dict_mem dict_get dict_lookup String.eqb Ascii.eqb Bool.eqb].
    destruct (Gemini.load_received json_loads (Gemini.received (snd r)))
      as [| | | | |d]; try reflexivity.
    now elim (Hd d). }
  split.
  - intros Hd. apply build_prompt_of_string. now apply Hres.
  - intros Hn.
    assert (Hv : v = PNone) by (subst v; now rewrite Hn).
    rewrite (build_prompt_of_string tmpl rec (py_str v)).
    + now rewrite Hv.
    + apply Hres. rewrite Hv. discriminate.
Qed.

Lemma inputs_prompt_of_non_mapping_witness :
  Gemini.build_prompt "{route} said {text}"
    (Gemini.input_record sample_loads
       (3, Gemini.mk_in_cols (Gemini.SqlText "/c") Gemini.SqlNull
             Gemini.SqlNull (Gemini.SqlText "t3")))
  = Ok "/c said None".
Proof.
  apply (proj2 (inputs_prompt_of_non_mapping sample_loads "{route} said {text}"
                  (3, Gemini.mk_in_cols (Gemini.SqlText "/c") Gemini.SqlNull
                        Gemini.SqlNull (Gemini.SqlText "t3")))).
  reflexivity.
Defined.

(** ** Results of the generation client adapter *)

Lemma try_generativeai_shape env key prompt model r :
  Gemini.try_generativeai env key prompt model = Ok (Some r) ->
  exists t raw, r = [("model", PStr model); ("text", t); ("raw", PStr raw)].
Proof.
  unfold Gemini.try_generativeai, Gemini.gen_result.
  destruct (Gemini.import_google_generativeai env) as [genai|e]; [|discriminate].
  cbn [bind].
  destruct (Gemini.generate_text genai) as [gen|].
  - destruct (gen model prompt) as [resp|e]; [|discriminate]. cbn [bind].
    destruct (Gemini.normalise_text resp) as [t|e]; [|discriminate]. cbn [bind].
    intros [= <-]. eauto.
  - destruct (Gemini.Client genai) as [[c|e]|]; try discriminate. cbn [bind].
    destruct (Gemini.client_generate_text c) as [gen|]; [|discriminate].
    cbn [bind].
    destruct (gen model prompt) as [out|e]; [|discriminate]. cbn [bind].
    intros [= <-]. eauto.
Qed.

Lemma try_google_genai_shape env key prompt model r :
  Gemini.try_google_genai env key prompt model = Ok (Some r) ->
  exists t raw, r = [("model", PStr model); ("text", t); ("raw", PStr raw)].
Proof.
  unfold Gemini.try_google_genai, Gemini.gen_result.
  destruct (Gemini.import_google_genai env) as [ggenai|e]; [|discriminate].
  cbn [bind].
  destruct (Gemini.generate_text ggenai) as [gen|]; [|discriminate].
  destruct (gen model prompt) as [resp|e]; [|discriminate]. cbn [bind].
  intros [= <-]. eauto.
Qed.

(** X4: whichever library and entry point answered, a result of
    [call_gemini] is a dict with exactly the keys model, text and raw, in
    this order, the model being the one asked for and raw a string. *)
Theorem call_gemini_result_is_canonical (env : Gemini.py_env)
    (prompt model : string) (r : pydict) :
  Gemini.call_gemini env prompt model = Ok r ->
  exists t raw, r = [("model", PStr model); ("text", t); ("raw", PStr raw)].
Proof.
  unfold Gemini.call_gemini. intros H.
  destruct (Gemini.try_generativeai _ _ _ _) as [[r1|]|e1] eqn:E1.
  - injection H as <-. eapply try_generativeai_shape; eassumption.
  - destruct (Gemini.try_google_genai _ _ _ _) as [[r2|]|e2] eqn:E2;
      try discriminate.
    injection H as <-. eapply try_google_genai_shape; eassumption.
  - destruct (Gemini.try_google_genai _ _ _ _) as [[r2|]|e2] eqn:E2;
      try discriminate.
    injection H as <-. eapply try_google_genai_shape; eassumption.
Qed.

Lemma call_gemini_result_is_canonical_witness :
  exists t raw,
    [("model", PStr "text-bison-001"); ("text", PStr "A summary.");
     ("raw", PStr "<Completion>")]
    = [("model", PStr "text-bison-001"); ("text", t); ("raw", PStr raw)].
Proof.
  apply (call_gemini_result_is_canonical working_env "Summarize: a"
           "text-bison-001"). reflexivity.
Defined.

(** X5: when [google.generativeai] is importable and its [generate_text]
    returns, [call_gemini] returns the normalised result whatever the
    environment variables hold, whatever [configure] does and whatever the
    second library is: the text is the [text] attribute of an object that
    has one, the content of the first candidate of a dict with a candidates
    list whose first element is a dict, and [str] of the response
    otherwise; raw is [repr] of the response. *)
Theorem generate_text_result_is_normalised (env : Gemini.py_env)
    (genai : Gemini.genai_module) (gen : Gemini.generator)
    (resp : Gemini.response) (prompt model : string) :
  Gemini.import_google_generativeai env = Ok genai ->
  Gemini.generate_text genai = Some gen ->
  gen model prompt = Ok resp ->
  let answer := fun t =>
    Gemini.call_gemini env prompt model
    = Ok [("model", PStr model); ("text", t);
          ("raw", PStr (Gemini.resp_repr resp))] in
  (forall t, Gemini.resp_text resp = Some t -> answer t) /\
  (forall d c rest,
     resp = Gemini.RValue (PDict d) ->
     dict_lookup d "candidates" = Some (PList (PDict c :: rest)) ->
     answer (dict_get c "content" PNone)) /\
  (forall v,
     resp = Gemini.RValue v ->
     (forall d, v = PDict d -> dict_lookup d "candidates" = None) ->
     answer (PStr (py_str v))).
Proof.
  intros Hi Hg Hr answer. subst answer. cbn beta.
  assert (Hcall : forall t, Gemini.normalise_text resp = Ok t ->
            Gemini.call_gemini env prompt model
            = Ok [("model", PStr model); ("text", t);
                  ("raw", PStr (Gemini.resp_repr resp))]).
  { intros t Hn. unfold Gemini.call_gemini, Gemini.try_generativeai.
    rewrite Hi. cbn [bind]. rewrite Hg, Hr. cbn [bind]. now rewrite Hn. }
  split; [|split].
  - intros t Ht. apply Hcall. unfold Gemini.normalise_text. now rewrite Ht.
  - intros d c rest -> Hc. apply Hcall.
    unfold Gemini.normalise_text, dict_mem, dict_get. cbn [Gemini.resp_text].
    now rewrite Hc.
  - intros v -> Hv. apply Hcall.
    unfold Gemini.normalise_text. cbn [Gemini.resp_text Gemini.resp_str].
    destruct v as [| | | | |d]; try reflexivity.
    unfold dict_mem. now rewrite (Hv d eq_refl).
Qed.

Lemma generate_text_result_is_normalised_witness :
  Gemini.call_gemini working_env "Summarize: a" "text-bison-001"
  = Ok [("model", PStr "text-bison-001"); ("text", PStr "A summary.");
        ("raw", PStr "<Completion>")].
Proof.
  refine (proj1 (generate_text_result_is_normalised working_env _ _
                   (Gemini.RObject (Some (PStr "A summary.")) "A summary."
                      "<Completion>")
                   "Summarize: a" "text-bison-001" eq_refl eq_refl eq_refl)
            (PStr "A summary.") eq_refl).
Defined.

(** ** Runs of the batch runner *)

Lemma run_records_dry envs envs' a tmpl : forall records i out,
  Gemini.call a = false ->
  Gemini.run_records envs a tmpl i records out
  = Gemini.run_records envs' a tmpl i records out.
Proof.
  induction records as [|rec records IH]; intros i out Hc; [reflexivity|].
  cbn [Gemini.run_records].
  destruct (Gemini.build_prompt tmpl rec) as [prompt|e]; [|reflexivity].
  unfold Gemini.record_result. rewrite Hc. now apply IH.
Qed.

(** X6: a run without [--call] does not depend on the client libraries, the
    environment variables or anything else the generation call would use:
    two runs that differ only in these end in the same log and status. *)
Theorem dry_run_ignores_the_client (json_loads : string -> option pyval)
    (fs : string -> option string) (envs envs' : nat -> Gemini.py_env)
    (a : Gemini.args) (w : Gemini.world) :
  Gemini.call a = false ->
  Gemini.main json_loads fs envs a w = Gemini.main json_loads fs envs' a w.
Proof.
  intros Hc. unfold Gemini.main.
  destruct (Gemini.load_template fs a) as [tmpl|e]; [|reflexivity].
  destruct (Gemini.read_records json_loads a w) as [[|rec records]|e];
    try reflexivity.
  now rewrite (run_records_dry envs envs' a tmpl (rec :: records) O _ Hc).
Qed.

Lemma dry_run_ignores_the_client_witness :
  Gemini.main sample_loads sample_files sample_envs dry_args sample_world
  = Gemini.main sample_loads sample_files (fun _ => working_env) dry_args
      sample_world.
Proof. apply dry_run_ignores_the_client. reflexivity. Defined.

Lemma run_records_appends envs a tmpl : forall records i out,
  exists lines,
    fst (Gemini.run_records envs a tmpl i records out)
    = (out ++ join lines)%string /\
    Forall whole_line lines /\
    (List.length lines <= List.length records)%nat.
Proof.
  induction records as [|rec records IH]; intros i out.
  - exists []. simpl. rewrite str_app_nil_r. repeat split; constructor.
  - cbn [Gemini.run_records].
    destruct (Gemini.build_prompt tmpl rec) as [prompt|e].
    + destruct (IH (S i) (out ++ line_of (Gemini.record_result (envs i) a rec prompt))%string)
        as (lines & Hrun & Hall & Hlen).
      exists (line_of (Gemini.record_result (envs i) a rec prompt) :: lines).
      split; [|split].
      * unfold line_of in Hrun |- *. rewrite Hrun. cbn [join fold_right].
        now rewrite str_app_assoc.
      * constructor; [|assumption].
        split; [apply line_of_one_newline | eauto].
      * simpl. lia.
    + exists []. simpl. rewrite str_app_nil_r.
      repeat split; [constructor | lia].
Qed.

(** X7: whatever the arguments, the files and the calls do, and whether the
    run ends normally or in an exception, [main] leaves both databases as
    they are and only appends to the results log: the content it had is
    kept, and what is added is a sequence of whole lines, each the JSON form
    of a dict followed by its only newline; a status it returns is 0. *)
Theorem main_only_appends_whole_lines (json_loads : string -> option pyval)
    (fs : string -> option string) (envs : nat -> Gemini.py_env)
    (a : Gemini.args) (w : Gemini.world) :
  exists lines,
    log_content (fst (Gemini.main json_loads fs envs a w))
    = (log_content w ++ join lines)%string /\
    Forall whole_line lines /\
    Gemini.cloud_db (fst (Gemini.main json_loads fs envs a w)) = Gemini.cloud_db w /\
    Gemini.inputs_db (fst (Gemini.main json_loads fs envs a w)) = Gemini.inputs_db w /\
    (forall z, snd (Gemini.main json_loads fs envs a w) = Ok z -> z = 0).
Proof.
  unfold Gemini.main.
  destruct (Gemini.load_template fs a) as [tmpl|e].
  2:{ exists []. simpl. rewrite str_app_nil_r.
      repeat split; [constructor | discriminate]. }
  destruct (Gemini.read_records json_loads a w) as [[|rec records]|e].
  1,3: exists []; simpl; rewrite str_app_nil_r;
       repeat split; [constructor | congruence || discriminate].
  destruct (run_records_appends envs a tmpl (rec :: records) O
              (match Gemini.out_file w with Some c => c | None => EmptyString end))
    as (lines & Hrun & Hall & _).
  exists lines.
  destruct (Gemini.run_records envs a tmpl O (rec :: records) _) as [out' r].
  cbn [fst] in Hrun. subst out'. cbn [fst snd].
  repeat split; try assumption.
  intros z. destruct r; cbn [bind]; congruence.
Qed.

Lemma run_records_stops envs a tmpl bad post e : forall pre i out,
  Forall (fun r => is_ok (Gemini.build_prompt tmpl r) = true) pre ->
  Gemini.build_prompt tmpl bad = Err e ->
  exists lines,
    Gemini.run_records envs a tmpl i (pre ++ bad :: post) out
    = ((out ++ join lines)%string, Err e) /\
    List.length lines = List.length pre /\
    Forall whole_line lines.
Proof.
  induction pre as [|rec pre IH]; intros i out Hpre Hbad.
  - exists []. cbn [app Gemini.run_records]. rewrite Hbad. simpl.
    rewrite str_app_nil_r. repeat split. constructor.
  - inversion Hpre as [|? ? Hr Hrs]; subst.
    cbn [app Gemini.run_records].
    destruct (Gemini.build_prompt tmpl rec) as [prompt|e']; [|discriminate].
    destruct (IH (S i) (out ++ line_of (Gemini.record_result (envs i) a rec prompt))%string
                Hrs Hbad) as (lines & Hrun & Hlen & Hall).
    exists (line_of (Gemini.record_result (envs i) a rec prompt) :: lines).
    split; [|split].
    + unfold line_of in Hrun |- *. rewrite Hrun. cbn [join fold_right].
      now rewrite str_app_assoc.
    + simpl. congruence.
    + constructor; [|assumption].
      split; [apply line_of_one_newline | eauto].
Qed.

(** X8: when the prompt of a record cannot be built, the run ends there with
    the exception of [build_prompt], caught by nothing: the lines of the
    records before it stay in the log, one each, and no line is written for
    that record or for any record after it. *)
Theorem prompt_failure_ends_run_and_keeps_lines
    (json_loads : string -> option pyval) (fs : string -> option string)
    (envs : nat -> Gemini.py_env) (a : Gemini.args) (w : Gemini.world)
    (tmpl : string) (pre post : list pydict) (bad : pydict) (e : exn) :
  Gemini.load_template fs a = Ok tmpl ->
  Gemini.read_records json_loads a w = Ok (pre ++ bad :: post) ->
  Forall (fun r => is_ok (Gemini.build_prompt tmpl r) = true) pre ->
  Gemini.build_prompt tmpl bad = Err e ->
  exists lines,
    Gemini.main json_loads fs envs a w
    = (Gemini.mk_world (Gemini.cloud_db w) (Gemini.inputs_db w)
         (Some (log_content w ++ join lines)%string), Err e) /\
    List.length lines = List.length pre /\
    Forall whole_line lines.
Proof.
  intros Ht Hr Hpre Hbad. unfold Gemini.main. rewrite Ht, Hr.
  destruct (run_records_stops envs a tmpl bad post e pre O
              (match Gemini.out_file w with Some c => c | None => EmptyString end)
              Hpre Hbad) as (lines & Hrun & Hlen & Hall).
  exists lines. split; [|split; assumption].
  destruct (pre ++ bad :: post) as [|rec records] eqn:E.
  - destruct pre; discriminate.
  - now rewrite Hrun.
Qed.

Lemma prompt_failure_ends_run_and_keeps_lines_witness :
  exists lines,
    Gemini.main sample_loads sample_files sample_envs inputs_args inputs_world
    = (Gemini.mk_world NoFile (DbFile (Some sample_inputs))
         (Some ("kept" ++ join lines)%string),
       Err (Raise TypeError "replace() argument 2 must be str, not int")) /\
    List.length lines = 1%nat /\
    Forall whole_line lines.
Proof.
  apply (prompt_failure_ends_run_and_keeps_lines sample_loads sample_files
           sample_envs inputs_args inputs_world Gemini.default_template
           [Gemini.input_record sample_loads
              (3, Gemini.mk_in_cols (Gemini.SqlText "/c") Gemini.SqlNull
                    Gemini.SqlNull (Gemini.SqlText "t3"))]
           [Gemini.input_record sample_loads
              (1, Gemini.mk_in_cols (Gemini.SqlText "/a") (Gemini.SqlText "plain")
                    Gemini.SqlNull (Gemini.SqlText "t1"))]
           (Gemini.input_record sample_loads
              (2, Gemini.mk_in_cols (Gemini.SqlText "/b") (Gemini.SqlText "{numeric}")
                    Gemini.SqlNull (Gemini.SqlText "t2")))).
  - reflexivity.
  - reflexivity.
  - repeat constructor.
  - reflexivity.
Defined.

(** X9: the readers test only that the database file exists.  On a file
    that exists without the table the statement fails with
    [OperationalError]; the run ends with it before the log is opened, and
    leaves every file as it was. *)
Theorem missing_table_ends_run (json_loads : string -> option pyval)
    (fs : string -> option string) (envs : nat -> Gemini.py_env)
    (a : Gemini.args) (w : Gemini.world) (tmpl : string) :
  Gemini.load_template fs a = Ok tmpl ->
  (Gemini.source a = Gemini.SrcCloud -> Gemini.cloud_db w = DbFile None) ->
  (Gemini.source a = Gemini.SrcInputs -> Gemini.inputs_db w = DbFile None) ->
  Gemini.main json_loads fs envs a w
  = (w, Err (Raise OperationalError
               ("no such table: "
                ++ match Gemini.source a with
                   | Gemini.SrcCloud => "cloud_strings"
                   | Gemini.SrcInputs => "inputs"
                   end)%string)).
Proof.
  intros Ht Hc Hi. unfold Gemini.main, Gemini.read_records. rewrite Ht.
  destruct (Gemini.source a).
  - now rewrite (Hc eq_refl).
  - now rewrite (Hi eq_refl).
Qed.

Lemma missing_table_ends_run_witness :
  Gemini.main sample_loads sample_files sample_envs dry_args tableless_world
  = (tableless_world,
     Err (Raise OperationalError "no such table: cloud_strings")).
Proof.
  apply (missing_table_ends_run sample_loads sample_files sample_envs dry_args
           tableless_world "{id}: {text}").
  - reflexivity.
  - reflexivity.
  - discriminate.
Defined.

(** ** Stores kept in insertion order *)

Section Ascending.

Context {C : Type}.
Implicit Types (l : list (Z * C)) (t : table C).

Lemma rows_ascending_ids l :
  rows_ascending l -> StronglySorted Z.lt (map fst l).
Proof.
  unfold rows_ascending.
  induction 1 as [|x l Hl IH Hx]; simpl; constructor; [assumption|].
  now apply Forall_map.
Qed.

Lemma rows_ascending_snoc l (r : Z * C) :
  rows_ascending l -> Forall (fun x => fst x < fst r) l ->
  rows_ascending (l ++ [r]).
Proof.
  unfold rows_ascending.
  induction 1 as [|x l Hl IH Hx]; intros Hr; simpl.
  - constructor; constructor.
  - inversion Hr as [|? ? Hxr Hlr]; subst.
    constructor; [now apply IH|].
    apply Forall_app. split; [assumption | now constructor].
Qed.

(** Rows in ascending order are listed as they are by [ORDER BY id ASC] and
    reversed by [ORDER BY id DESC]. *)
Lemma order_by_id_asc_ascending l :
  rows_ascending l -> order_by_id_asc l = l.
Proof.
  unfold rows_ascending.
  induction 1 as [|x l Hl IH Hx]; [reflexivity|].
  cbn [order_by_id_asc fold_right]. fold (order_by_id_asc l). rewrite IH.
  destruct l as [|y l']; [reflexivity|].
  cbn [insert_asc]. inversion Hx as [|? ? Hxy _]; subst.
  destruct (fst x <=? fst y) eqn:E; [reflexivity|].
  apply Z.leb_gt in E. lia.
Qed.

Lemma order_by_id_desc_ascending l :
  rows_ascending l -> order_by_id_desc l = rev l.
Proof.
  intros H.
  rewrite <- (app_nil_r (rev l)).
  change (order_by_id_desc l) with (order_by_id_desc ([] ++ l)).
  apply (order_by_id_desc_app l []).
  - now apply rows_ascending_ids.
  - apply Forall_forall. intros i _. constructor.
Qed.

Lemma table_wf_empty : table_wf (@empty_table C).
Proof. split; constructor. Qed.

(** An insert keeps the rows in ascending order below the sequence value. *)
Lemma sqlite_insert_wf t (c : C) t' id :
  table_wf t -> sqlite_insert t c = Ok (t', id) -> table_wf t'.
Proof.
  intros [Hasc Hseq]. unfold sqlite_insert.
  destruct (next_rowid t) as [v|e] eqn:E; [|discriminate].
  cbn [bind]. intros [= <- <-].
  apply next_rowid_above in E as [Hab Hsv].
  split; cbn [rows seq].
  - now apply rows_ascending_snoc.
  - apply Forall_app. split.
    + eapply Forall_impl; [|exact Hab]. intros x Hx; simpl in *; lia.
    + constructor; [simpl; lia | constructor].
Qed.

Lemma table_wf_nodup t : table_wf t -> NoDup (map fst (rows t)).
Proof.
  intros [Hasc _]. apply rows_ascending_ids in Hasc.
  induction Hasc as [|i ids Hs IH Hi]; constructor; [|assumption].
  intros Hin. rewrite Forall_forall in Hi. specialize (Hi i Hin). lia.
Qed.

End Ascending.

Lemma db_table_rows {C : Type} (d : dbfile C) : rows (db_table d) = db_rows d.
Proof. destruct d as [|[t|]]; reflexivity. Qed.

(** X10: every function of the two stores keeps the rows in strictly
    ascending order of id with no id above the AUTOINCREMENT sequence value,
    whether it succeeds or raises; a missing database satisfies this, so
    every store these functions built does, and its ids are pairwise
    different. *)
Theorem stores_stay_ordered :
  (forall now text src proc (d : Storage.db),
     db_wf d -> db_wf (fst (Storage.save_input now text src proc d))) /\
  (forall limit (d : Storage.db),
     db_wf d -> db_wf (fst (Storage.get_all limit d))) /\
  (forall fs now path (d : Cloud.db),
     db_wf d -> db_wf (fst (Cloud.store_txt_file_in_cloud fs now path d))) /\
  (forall d : Cloud.db,
     db_wf d -> db_wf (fst (Cloud.read_all_strings_from_cloud d))) /\
  (forall C : Type, db_wf (@NoFile C)) /\
  (forall (C : Type) (d : dbfile C), db_wf d -> NoDup (map fst (db_rows d))).
Proof.
  split; [|split; [|split; [|split; [|split]]]].
  - intros now text src proc d H. unfold Storage.save_input.
    destruct text as [t|]; [|exact H].
    destruct (sqlite_insert (Storage.init_db d) (Storage.mk_cols t src proc now))
      as [[tbl' id]|e] eqn:E; cbn [fst]; [|exact H].
    unfold db_wf. cbn [db_table].
    eapply sqlite_insert_wf; [exact H | exact E].
  - intros limit d H. exact H.
  - intros fs now path d H. unfold Cloud.store_txt_file_in_cloud.
    destruct (fs path) as [text|]; [|exact H].
    destruct (text =? "")%string; [exact H|].
    destruct (sqlite_insert (Cloud.ensure_table d) (Cloud.mk_cols text (Some now)))
      as [[tbl' id]|e] eqn:E; cbn [fst]; [|exact H].
    unfold db_wf. cbn [db_table].
    eapply sqlite_insert_wf; [exact H | exact E].
  - intros d H. exact H.
  - intros C. apply table_wf_empty.
  - intros C d H. rewrite <- db_table_rows. now apply table_wf_nodup.
Qed.

Lemma stores_stay_ordered_witness :
  db_wf (fst (Storage.save_input "2025-01-01T00:00:02" (Some "c") None None
                two_inputs)).
Proof.
  apply (proj1 stores_stay_ordered).
  split; repeat constructor; simpl; lia.
Defined.

(** X11: on a store these functions built, [read_all_strings_from_cloud]
    lists the rows in the order they were inserted, and
    [read_cloud_strings] without a limit lists the same rows in exactly the
    reverse order. *)
Theorem cloud_listings_follow_insertion_order (d : Cloud.db) :
  db_wf d ->
  snd (Cloud.read_all_strings_from_cloud d)
  = Ok (map Cloud.record (db_rows d)) /\
  (forall t, d = DbFile (Some t) ->
     Gemini.read_cloud_strings None d
     = Ok (map Gemini.cloud_record (rev (db_rows d))) /\
     Gemini.read_cloud_strings (Some 0) d
     = Ok (map Gemini.cloud_record (rev (db_rows d)))).
Proof.
  intros [Hasc _]. rewrite db_table_rows in Hasc. split.
  - unfold Cloud.read_all_strings_from_cloud. cbn [snd].
    now rewrite cloud_ensure_rows, order_by_id_asc_ascending.
  - intros t ->. cbn [db_rows] in *.
    unfold Gemini.read_cloud_strings, Gemini.select_desc. cbn.
    now rewrite order_by_id_desc_ascending.
Qed.

Lemma cloud_listings_follow_insertion_order_witness :
  snd (Cloud.read_all_strings_from_cloud
         (DbFile (Some (abc_table None None None 3))))
  = Ok (map Cloud.record (rows (abc_table None None None 3))).
Proof.
  apply (cloud_listings_follow_insertion_order
           (DbFile (Some (abc_table None None None 3)))).
  split; repeat constructor; simpl; lia.
Defined.

Lemma positive_limit_applies (k : Z) :
  0 < k <= MAX_ROWID -> (k =? 0) = false /\ in_int64 k = true.
Proof.
  intros [Hpos Hmax]. split; [apply Z.eqb_neq; lia|].
  unfold in_int64, MIN_INT64. apply andb_true_iff.
  split; apply Z.leb_le; [lia | assumption].
Qed.

Lemma get_all_limit_snd (k : Z) (d : Storage.db) :
  0 < k <= MAX_ROWID ->
  snd (Storage.get_all (Some k) d)
  = Ok (map Storage.record
          (firstn (Z.to_nat k) (order_by_id_desc (db_rows d)))).
Proof.
  intros Hk. destruct (positive_limit_applies k Hk) as [Hz Hin].
  unfold Storage.get_all. cbn [snd]. rewrite Hz, Hin.
  rewrite sql_limit_pos by lia. cbn [bind].
  now rewrite storage_init_rows.
Qed.

(** X12: on a store these functions built, [get_all] lists the rows in
    exactly the reverse of the order they were inserted, and with a positive
    limit k (up to 2^63 - 1) it returns the k rows inserted last. *)
Theorem get_all_lists_most_recent_first (d : Storage.db) :
  db_wf d ->
  snd (Storage.get_all None d) = Ok (map Storage.record (rev (db_rows d))) /\
  (forall k, 0 < k <= MAX_ROWID ->
     snd (Storage.get_all (Some k) d)
     = Ok (map Storage.record (firstn (Z.to_nat k) (rev (db_rows d))))).
Proof.
  intros [Hasc _]. rewrite db_table_rows in Hasc. split.
  - rewrite get_all_none_snd. now rewrite order_by_id_desc_ascending.
  - intros k Hk.
    rewrite get_all_limit_snd by assumption.
    now rewrite order_by_id_desc_ascending.
Qed.

Lemma get_all_lists_most_recent_first_witness :
  snd (Storage.get_all (Some 1) two_inputs)
  = Ok (map Storage.record (firstn (Z.to_nat 1) (rev (db_rows two_inputs)))).
Proof.
  apply (get_all_lists_most_recent_first two_inputs).
  - split; repeat constructor; simpl; lia.
  - unfold MAX_ROWID. lia.
Defined.

(** ** Sequences of cloud appends *)

Section AscendingAppend.

Context {C : Type}.
Implicit Types (l old new : list (Z * C)).

Lemma insert_asc_app (x : Z * C) l new :
  Forall (fun y => fst x < fst y) new ->
  insert_asc x (l ++ new) = insert_asc x l ++ new.
Proof.
  intros Hn. induction l as [|y l IH]; simpl.
  - destruct new as [|z new]; [reflexivity|].
    simpl. inversion Hn; subst.
    destruct (fst x <=? fst z) eqn:E; [reflexivity|].
    apply Z.leb_gt in E. lia.
  - destruct (fst x <=? fst y); [reflexivity|]. now rewrite IH.
Qed.

Lemma order_by_id_asc_app old new :
  rows_ascending new ->
  Forall (fun x => Forall (fun y => fst x < fst y) new) old ->
  order_by_id_asc (old ++ new) = order_by_id_asc old ++ new.
Proof.
  intros Hn Ho. unfold order_by_id_asc at 1. rewrite fold_right_app.
  fold (order_by_id_asc new). rewrite (order_by_id_asc_ascending new Hn).
  induction Ho as [|x old Hx Hold IH]; [reflexivity|].
  cbn [fold_right]. rewrite IH.
  cbn [order_by_id_asc fold_right]. now apply insert_asc_app.
Qed.

Lemma combine_ascending (ids : list Z) (cs : list C) :
  StronglySorted Z.lt ids -> rows_ascending (combine ids cs).
Proof.
  unfold rows_ascending. intros Hs. revert cs.
  induction Hs as [|i ids Hs IH Hi]; intros [|c cs]; simpl; try constructor.
  - apply IH.
  - apply Forall_forall. intros [j c'] Hin. simpl.
    apply in_combine_l in Hin. rewrite Forall_forall in Hi. now apply Hi.
Qed.

End AscendingAppend.

(** What a successful [store_txt_file_in_cloud] does to the store. *)
Lemma store_txt_file_ok fs now path d d1 id :
  Cloud.store_txt_file_in_cloud fs now path d = (d1, Ok id) ->
  exists t,
    fs path = Some t /\ t <> "" /\
    next_rowid (Cloud.ensure_table d) = Ok id /\
    d1 = DbFile (Some (mk_table
           (db_rows d ++ [(id, Cloud.mk_cols t (Some now))]) id)).
Proof.
  unfold Cloud.store_txt_file_in_cloud, sqlite_insert. intros H.
  destruct (fs path) as [t|]; [|discriminate].
  destruct (t =? "")%string eqn:Et; [discriminate|].
  apply String.eqb_neq in Et.
  exists t. split; [reflexivity|]. split; [assumption|].
  destruct (next_rowid (Cloud.ensure_table d)) as [v|e]; simpl in H.
  - injection H as <- <-. now rewrite cloud_ensure_rows.
  - discriminate.
Qed.

Lemma store_all_rows fs items : forall d d' ids,
  store_all fs items d = (d', Ok ids) ->
  List.length ids = List.length items /\
  db_rows d' = db_rows d ++ combine ids (map (stored_cols fs) items) /\
  StronglySorted Z.lt ids /\
  Forall (fun i => Forall (fun x => fst x < i) (db_rows d)) ids /\
  Forall (fun it => exists t, fs (fst it) = Some t /\ t <> "") items.
Proof.
  induction items as [|[path now] items IH]; intros d d' ids H;
    cbn [store_all] in H.
  - injection H as <- <-. simpl. rewrite app_nil_r.
    repeat split; constructor.
  - destruct (Cloud.store_txt_file_in_cloud fs now path d)
      as [d1 [id|e]] eqn:E1; [|discriminate].
    destruct (store_all fs items d1) as [d2 [ids'|e]] eqn:E2; [|discriminate].
    injection H as <- <-.
    apply store_txt_file_ok in E1 as (t & Hf & Hne & Hn & ->).
    apply next_rowid_above in Hn as [Hab _]. rewrite cloud_ensure_rows in Hab.
    destruct (IH _ _ _ E2) as (Hl & Hr & Hs & Hfa & Hit). simpl in Hr, Hfa.
    split; [simpl; congruence|].
    split; [rewrite Hr, <- app_assoc; unfold stored_cols at 2; simpl;
            now rewrite Hf|].
    split; [|split].
    + constructor; [assumption|].
      eapply Forall_impl; [|exact Hfa]. intros i Hi.
      apply Forall_app in Hi as [_ Hi]. now inversion Hi.
    + constructor; [assumption|].
      eapply Forall_impl; [|exact Hfa]. intros i Hi.
      now apply Forall_app in Hi as [Hi _].
    + constructor; [simpl; eauto | assumption].
Qed.

(** X13: when n calls of [store_txt_file_in_cloud] in sequence all succeed,
    every file read existed and was not empty, the ids returned are strictly
    increasing, the store holds the rows it held before followed by the n
    new rows, and [read_all_strings_from_cloud] returns the former listing
    followed by the new records in exactly the order of insertion. *)
Theorem cloud_appends_are_listed_in_order (fs : string -> option string)
    (items : list (string * string)) (d d' : Cloud.db) (ids : list Z) :
  store_all fs items d = (d', Ok ids) ->
  let new := combine ids (map (stored_cols fs) items) in
  Forall (fun it => exists t, fs (fst it) = Some t /\ t <> "") items /\
  List.length ids = List.length items /\
  StronglySorted Z.lt ids /\
  db_rows d' = db_rows d ++ new /\
  snd (Cloud.read_all_strings_from_cloud d')
  = Ok (map Cloud.record (order_by_id_asc (db_rows d) ++ new)).
Proof.
  intros H new.
  destruct (store_all_rows fs items d d' ids H) as (Hl & Hr & Hs & Hf & Hit).
  repeat split; try assumption.
  unfold Cloud.read_all_strings_from_cloud. cbn [snd].
  rewrite cloud_ensure_rows, Hr. f_equal. f_equal.
  apply order_by_id_asc_app.
  - now apply combine_ascending.
  - apply Forall_forall. intros x Hx. apply Forall_forall. intros [j c] Hj.
    simpl. apply in_combine_l in Hj.
    rewrite Forall_forall in Hf. specialize (Hf j Hj).
    rewrite Forall_forall in Hf. now apply Hf.
Qed.

Lemma cloud_appends_are_listed_in_order_witness :
  StronglySorted Z.lt [1; 2] /\
  snd (Cloud.read_all_strings_from_cloud
         (fst (store_all sample_files
                 [("one.txt", "2025-01-01 00:00:00");
                  ("two.txt", "2025-01-01 00:00:01")] NoFile)))
  = Ok (map Cloud.record
          (order_by_id_asc []
           ++ combine [1; 2]
                (map (stored_cols sample_files)
                   [("one.txt", "2025-01-01 00:00:00");
                    ("two.txt", "2025-01-01 00:00:01")]))).
Proof.
  pose proof (cloud_appends_are_listed_in_order sample_files
                [("one.txt", "2025-01-01 00:00:00");
                 ("two.txt", "2025-01-01 00:00:01")] NoFile
                (fst (store_all sample_files
                        [("one.txt", "2025-01-01 00:00:00");
                         ("two.txt", "2025-01-01 00:00:01")] NoFile))
                [1; 2] eq_refl) as (_ & _ & Hs & _ & Hg).
  split; assumption.
Defined.

(** ** Ids are not reused *)

(** X14: the id a successful append returns becomes the AUTOINCREMENT
    sequence value of the store, and an insert into a table with that
    sequence value is given a larger id whatever rows the table then holds:
    an id is not assigned twice, even after rows were deleted from outside. *)
Theorem ids_are_never_reused :
  (forall now text src proc (d d1 : Storage.db) id,
     Storage.save_input now text src proc d = (d1, Ok id) ->
     seq (db_table d1) = id) /\
  (forall fs now path (d d1 : Cloud.db) id,
     Cloud.store_txt_file_in_cloud fs now path d = (d1, Ok id) ->
     seq (db_table d1) = id) /\
  (forall (C : Type) (survivors : list (Z * C)) (id v : Z),
     next_rowid (mk_table survivors id) = Ok v -> id < v).
Proof.
  split; [|split].
  - intros now text src proc d d1 id H.
    now apply save_input_ok in H as (t & _ & _ & ->).
  - intros fs now path d d1 id H.
    now apply store_txt_file_ok in H as (t & _ & _ & _ & ->).
  - intros C survivors id v H.
    now apply next_rowid_above in H as [_ H].
Qed.

Lemma ids_are_never_reused_witness :
  seq (db_table (fst (Storage.save_input "2025-01-01T00:00:02" (Some "c")
                        None None two_inputs))) = 3.
Proof.
  apply (proj1 ids_are_never_reused "2025-01-01T00:00:02" (Some "c") None None
           two_inputs). reflexivity.
Defined.

(** ** Limits that are not positive *)

(** X15: a negative limit (down to -2^63) is no limit: [get_all] and
    [read_cloud_strings] return what they return without a limit. *)
Theorem negative_limit_is_no_limit (k : Z) :
  MIN_INT64 <= k < 0 ->
  (forall d : Storage.db,
     Storage.get_all (Some k) d = Storage.get_all None d) /\
  (forall d : Cloud.db,
     Gemini.read_cloud_strings (Some k) d = Gemini.read_cloud_strings None d).
Proof.
  intros [Hmin Hneg].
  assert (Hz : (k =? 0) = false) by (apply Z.eqb_neq; lia).
  assert (Hin : in_int64 k = true).
  { unfold in_int64. apply andb_true_iff.
    split; apply Z.leb_le; [assumption | unfold MAX_ROWID; lia]. }
  assert (Hl : forall (A : Type) (l : list A), sql_limit k l = l).
  { intros A l. unfold sql_limit.
    destruct (k <? 0) eqn:E; [reflexivity | apply Z.ltb_ge in E; lia]. }
  split.
  - intros d. unfold Storage.get_all. now rewrite Hz, Hin, Hl.
  - intros [|tbl]; [reflexivity|].
    unfold Gemini.read_cloud_strings, Gemini.select_desc.
    destruct tbl as [t|]; [|reflexivity]. now rewrite Hz, Hin, Hl.
Qed.

Lemma negative_limit_is_no_limit_witness :
  Storage.get_all (Some (-1)) two_inputs = Storage.get_all None two_inputs.
Proof.
  apply (proj1 (negative_limit_is_no_limit (-1)
                  ltac:(unfold MIN_INT64; lia))).
Defined.

(** ** The HTTP surface *)

(** X16: [receive_data] never raises and answers with exactly one of three
    statuses: 200 exactly when the body parsed to a truthy value, which is
    then echoed under [received_data]; 400 exactly when it parsed to a falsy
    value (null, false, 0, an empty string, list or object); 500 exactly
    when parsing raised, the message of the exception being part of the
    answer.  A body that is not JSON is therefore answered with 500. *)
Theorem receive_data_statuses (get_json : result pyval) :
  let body := fst (Api.receive_data get_json) in
  let status := snd (Api.receive_data get_json) in
  (status = 200 <-> exists data, get_json = Ok data /\ truthy data = true) /\
  (status = 400 <-> exists data, get_json = Ok data /\ truthy data = false) /\
  (status = 500 <-> exists e, get_json = Err e) /\
  (forall data, get_json = Ok data -> truthy data = true ->
     dict_lookup body "received_data" = Some data) /\
  (forall e, get_json = Err e ->
     dict_lookup body "message"
     = Some (PStr ("An error occurred: " ++ exc_msg e)%string)).
Proof.
  unfold Api.receive_data.
  destruct get_json as [data|e]; [destruct (truthy data) eqn:E|]; cbn.
  all: repeat split; try discriminate; try (intros; congruence).
  all: try (intros [x [H1 H2]]; congruence).
  all: try (intros [x H1]; congruence).
  all: try (intros _; eauto).
  all: try (intros ? [= <-]; reflexivity).
  all: try (intros ? [= <-] _; reflexivity).
Qed.
